(** * Wiki-Cyberpank2077: the cache-backed retrieval layer

    A shallow embedding of [src/backend/src/app/redis/redis_cache.py]
    (class [RedisCache]), of the route handlers of
    [src/backend/src/api/v1/wiki/router.py] and of the constants of
    [src/backend/src/core/config.py], together with the properties of the
    specification that concern them.

    Python objects are modelled by the JSON-like values the program stores
    ([pyval]); strings are ASCII strings; dictionaries keep their insertion
    order (association lists); the Redis server and the file system are
    finite maps inside an explicit [world] that every operation threads,
    together with a clock and a trace of the accesses made. *)

From Stdlib Require Import ZArith String Ascii List Bool Lia.
From stdpp Require Import base option list gmap strings.
Import ListNotations.

Set Warnings "-register-all".
Local Open Scope string_scope.
Local Open Scope Z_scope.

(** ** Python values *)

Inductive pyval : Type :=
| PNone
| PBool (b : bool)
| PInt (n : Z)
| PStr (s : string)
| PList (l : list pyval)
| PDict (d : list (string * pyval)).

(** A dictionary: keys in insertion order, each key once. *)
Abbreviation pydict := (list (string * pyval)).

(** Truth value of an object, as tested by [if x:], [not x] and [x or y]. *)
Definition truthy (v : pyval) : bool :=
  match v with
  | PNone => false
  | PBool b => b
  | PInt n => negb (n =? 0)
  | PStr s => negb (String.length s =? 0)%nat
  | PList l => negb (length l =? 0)%nat
  | PDict d => negb (length d =? 0)%nat
  end.

(** [x or y] *)
Definition py_or (x y : pyval) : pyval := if truthy x then x else y.

(** [d.get(k)] and [k in d] on a dictionary. *)
Fixpoint dict_get (k : string) (d : pydict) : option pyval :=
  match d with
  | [] => None
  | (k', v) :: d' => if String.eqb k k' then Some v else dict_get k d'
  end.

Definition dict_mem (k : string) (d : pydict) : bool :=
  match dict_get k d with Some _ => true | None => false end.

(** [d[k] = v]: an existing key keeps its position, a new key goes last. *)
Fixpoint dict_set (k : string) (v : pyval) (d : pydict) : pydict :=
  match d with
  | [] => [(k, v)]
  | (k', v') :: d' =>
      if String.eqb k k' then (k, v) :: d' else (k', v') :: dict_set k v d'
  end.

(** [list(d.values())] *)
Definition dict_values (d : pydict) : list pyval := map snd d.

(** ** Python strings (ASCII)

    A string is a sequence of characters with codes below 128; the
    predicates and [lower] leave the codes above alone. *)

Definition code (c : ascii) : N := N_of_ascii c.

(** [str.isspace] on one ASCII character: TAB, LF, VT, FF, CR, the four
    separators 0x1c-0x1f, and the space. *)
Definition isspace (c : ascii) : bool :=
  let n := code c in
  ((9 <=? n) && (n <=? 13) || (28 <=? n) && (n <=? 32))%N.

Definition isupper (c : ascii) : bool :=
  let n := code c in ((65 <=? n) && (n <=? 90))%N.

Definition islower (c : ascii) : bool :=
  let n := code c in ((97 <=? n) && (n <=? 122))%N.

Definition isdigit (c : ascii) : bool :=
  let n := code c in ((48 <=? n) && (n <=? 57))%N.

(** [c.isalnum()] on one ASCII character.  Beyond ASCII, [str.isalnum] also
    holds of the letters and digits of other scripts, which these strings do
    not have. *)
Definition isalnum (c : ascii) : bool := isupper c || islower c || isdigit c.

Definition lower_char (c : ascii) : ascii :=
  if isupper c then ascii_of_N (code c + 32) else c.

(** [s.lower()] *)
Fixpoint lower (s : string) : string :=
  match s with
  | EmptyString => EmptyString
  | String c s' => String (lower_char c) (lower s')
  end.

(** [s.lstrip()], [s.rstrip()], [s.strip()] *)
Fixpoint lstrip (s : string) : string :=
  match s with
  | EmptyString => EmptyString
  | String c s' => if isspace c then lstrip s' else s
  end.

Fixpoint rstrip (s : string) : string :=
  match s with
  | EmptyString => EmptyString
  | String c s' =>
      match rstrip s' with
      | EmptyString => if isspace c then EmptyString else String c EmptyString
      | r => String c r
      end
  end.

Definition strip (s : string) : string := rstrip (lstrip s).

(** [len(s)] *)
Definition len (s : string) : Z := Z.of_nat (String.length s).

(** Character-wise rewriting, as in [s.replace(a, "_")] for a one-character
    [a] and in ["".join(c if p(c) else "_" for c in s)]. *)
Fixpoint map_chars (f : ascii -> ascii) (s : string) : string :=
  match s with
  | EmptyString => EmptyString
  | String c s' => String (f c) (map_chars f s')
  end.

Definition replace_char (a b : ascii) (s : string) : string :=
  map_chars (fun c => if Ascii.eqb c a then b else c) s.

(** [sub in s] *)
Fixpoint contains (sub s : string) : bool :=
  String.prefix sub s ||
  match s with
  | EmptyString => false
  | String _ s' => contains sub s'
  end.

(** [l[start:stop]] with Python's treatment of negative and out-of-range
    bounds. *)
Definition clamp_index (n i : Z) : Z :=
  let i := if i <? 0 then i + n else i in
  Z.max 0 (Z.min n i).

Definition py_slice {A} (l : list A) (start stop : Z) : list A :=
  let n := Z.of_nat (length l) in
  let a := clamp_index n start in
  let b := clamp_index n stop in
  firstn (Z.to_nat (b - a)) (skipn (Z.to_nat a) l).

(** ** Exceptions and results *)

Inductive exn : Type :=
| TypeError
| AttributeError
| KeyError
| ConnectionError       (* raised by the Redis client *)
| OSError               (* raised by file operations *)
| JSONDecodeError
| OverflowError         (* raised by timedelta *)
| ScraperError          (* raised by the scraping collaborator *)
| HTTPException (status_code : Z).

Inductive result (A : Type) : Type :=
| Ok (a : A)
| Raise (e : exn).
Arguments Ok {A} a.
Arguments Raise {A} e.

(** ** Configuration ([core/config.py]) *)

Definition TEMP_DIR : string := "data/temp".
Definition REDIS_TTL : Z := 3600.
Definition USE_REDIS_CACHE : bool := false.
Definition SEARCH_MIN_QUERY_LENGTH : Z := 3.
Definition SEARCH_MAX_RESULTS : Z := 20.
Definition SEARCH_CACHE_TTL : Z := 300.

(** The integer fields that [Settings] declares. *)
Definition int_settings : list (string * Z) :=
  [ ("API_PORT", 8000);
    ("REDIS_PORT", 6379);
    ("REDIS_DB", 0);
    ("REDIS_TTL", REDIS_TTL);
    ("SEARCH_MIN_QUERY_LENGTH", SEARCH_MIN_QUERY_LENGTH);
    ("SEARCH_MAX_RESULTS", SEARCH_MAX_RESULTS);
    ("SEARCH_CACHE_TTL", SEARCH_CACHE_TTL) ].

Definition CATEGORIES : list (string * string) :=
  [ ("characters", "Cyberpunk 2077 Characters");
    ("vehicles", "Cyberpunk 2077 Vehicles");
    ("weapons", "Weapons in Cyberpunk 2077");
    ("locations", "Cyberpunk 2077 Locations");
    ("perks", "Perks in Cyberpunk 2077");
    ("items", "Items in Cyberpunk 2077") ].

(** [name in CATEGORIES] *)
Definition in_CATEGORIES (name : string) : bool :=
  existsb (fun kv => String.eqb name (fst kv)) CATEGORIES.

(** ** The world the program runs in *)

(** What the program does to its surroundings, in order. *)
Inductive event : Type :=
| EvCacheGet (key : string)          (* RedisCache.get *)
| EvCacheSet (key : string)          (* RedisCache.set *)
| EvCacheDelete (key : string)       (* RedisCache.delete *)
| EvDiskRead (path : string)         (* a snapshot file is looked up *)
| EvDiskWrite (path : string)        (* a snapshot file is written *)
| EvScrape (category : string)       (* scrape_category is executed *)
| EvFetchItem (title : string).      (* get_page_metadata is executed *)

(** A JSON snapshot file: a document, or bytes [json.load] rejects. *)
Inductive json_file : Type :=
| JsonDoc (v : pyval)
| Garbled.

(** Times are in microseconds, the resolution of [datetime]. *)
Definition seconds (n : Z) : Z := n * 1000000.

Record world : Type := World {
  now : Z;                                       (* the clock *)
  use_redis : bool;                              (* self.use_redis *)
  ttl : Z;                                       (* self.ttl, in seconds *)
  redis_up : bool;                               (* the server answers *)
  redis_db : gmap string (pyval * option Z);     (* value, expiry time *)
  disk_ok : bool;                                (* file operations work *)
  cache_files : gmap string (pyval * Z);         (* *.cache: value, mtime *)
  json_files : gmap string json_file;            (* *.json under DATA_DIR *)
  wiki : string -> result pydict;                (* what scrape_category yields *)
  wiki_page : string -> result pydict;           (* what get_page_metadata yields *)
  background : list string;                      (* queued _scrape tasks *)
  trace : list event
}.

Definition set_now (f : Z -> Z) (w : world) : world :=
  World (f (now w)) (use_redis w) (ttl w) (redis_up w) (redis_db w) (disk_ok w)
        (cache_files w) (json_files w) (wiki w) (wiki_page w) (background w)
        (trace w).

Definition set_use_redis (b : bool) (w : world) : world :=
  World (now w) b (ttl w) (redis_up w) (redis_db w) (disk_ok w)
        (cache_files w) (json_files w) (wiki w) (wiki_page w) (background w)
        (trace w).

Definition set_redis_db
    (f : gmap string (pyval * option Z) -> gmap string (pyval * option Z))
    (w : world) : world :=
  World (now w) (use_redis w) (ttl w) (redis_up w) (f (redis_db w)) (disk_ok w)
        (cache_files w) (json_files w) (wiki w) (wiki_page w) (background w)
        (trace w).

Definition set_cache_files
    (f : gmap string (pyval * Z) -> gmap string (pyval * Z))
    (w : world) : world :=
  World (now w) (use_redis w) (ttl w) (redis_up w) (redis_db w) (disk_ok w)
        (f (cache_files w)) (json_files w) (wiki w) (wiki_page w) (background w)
        (trace w).

Definition set_json_files
    (f : gmap string json_file -> gmap string json_file) (w : world) : world :=
  World (now w) (use_redis w) (ttl w) (redis_up w) (redis_db w) (disk_ok w)
        (cache_files w) (f (json_files w)) (wiki w) (wiki_page w) (background w)
        (trace w).

Definition set_background (f : list string -> list string) (w : world) : world :=
  World (now w) (use_redis w) (ttl w) (redis_up w) (redis_db w) (disk_ok w)
        (cache_files w) (json_files w) (wiki w) (wiki_page w) (f (background w))
        (trace w).

Definition set_trace (f : list event -> list event) (w : world) : world :=
  World (now w) (use_redis w) (ttl w) (redis_up w) (redis_db w) (disk_ok w)
        (cache_files w) (json_files w) (wiki w) (wiki_page w) (background w)
        (f (trace w)).

(** Time passes. *)
Definition elapse (dt : Z) (w : world) : world := set_now (fun t => t + dt) w.

(** ** Computations: state passing with exceptions

    A raised exception keeps the changes made to the world before it. *)

Definition M (A : Type) : Type := world -> result A * world.

Definition ret {A} (a : A) : M A := fun w => (Ok a, w).

Definition raise {A} (e : exn) : M A := fun w => (Raise e, w).

Definition bind {A B} (m : M A) (k : A -> M B) : M B :=
  fun w =>
    match m w with
    | (Ok a, w') => k a w'
    | (Raise e, w') => (Raise e, w')
    end.

(** [try: m  except Exception as e: h e] *)
Definition try_except {A} (m : M A) (h : exn -> M A) : M A :=
  fun w =>
    match m w with
    | (Ok a, w') => (Ok a, w')
    | (Raise e, w') => h e w'
    end.

Definition gets {A} (f : world -> A) : M A := fun w => (Ok (f w), w).

Definition modify (f : world -> world) : M unit := fun w => (Ok tt, f w).

Definition log (e : event) : M unit := modify (set_trace (fun t => (t ++ [e])%list)).

Notation "x <- m ;; k" := (bind m (fun x => k))
  (at level 20, m at level 99, k at level 200, only parsing).
Notation "m ;; k" := (bind m (fun _ => k))
  (at level 100, k at level 200, only parsing, right associativity).

(** [for x in l: body x] *)
Fixpoint for_ {A} (l : list A) (body : A -> M unit) : M unit :=
  match l with
  | [] => ret tt
  | x :: l' => body x ;; for_ l' body
  end.

(** [settings.NAME] where an integer is expected: the value of a declared
    field; [Settings] has no other attribute, and the lookup of another name
    raises [AttributeError]. *)
Definition settings_int (name : string) : M Z :=
  match List.find (fun kv => String.eqb name (fst kv)) int_settings with
  | Some (_, n) => ret n
  | None => raise AttributeError
  end.

(** [timedelta(seconds=t)], in microseconds: the days of a [timedelta] are
    at most [999999999] in magnitude, and a longer span raises
    [OverflowError]. *)
Definition TIMEDELTA_MAX_DAYS : Z := 999999999.

Definition timedelta (t : Z) : M Z :=
  if Z.abs (t / 86400) >? TIMEDELTA_MAX_DAYS then raise OverflowError
  else ret (seconds t).

(** ** The Redis client and the file system *)

(** [redis_client.get(key)]: the stored bytes, or [None] once the entry has
    expired; raises when the server does not answer. *)
Definition redis_client_get (key : string) : M (option pyval) :=
  fun w =>
    if redis_up w then
      (Ok match redis_db w !! key with
          | Some (v, None) => Some v
          | Some (v, Some deadline) => if now w <? deadline then Some v else None
          | None => None
          end, w)
    else (Raise ConnectionError, w).

(** [redis_client.setex(key, ttl, value)] *)
Definition redis_client_setex (key : string) (t : Z) (v : pyval) : M bool :=
  fun w =>
    if redis_up w then
      (Ok true, set_redis_db <[key := (v, Some (now w + seconds t))]> w)
    else (Raise ConnectionError, w).

(** [redis_client.set(key, value)] *)
Definition redis_client_set (key : string) (v : pyval) : M bool :=
  fun w =>
    if redis_up w then (Ok true, set_redis_db <[key := (v, None)]> w)
    else (Raise ConnectionError, w).

(** [redis_client.delete(key)] *)
Definition redis_client_delete (key : string) : M unit :=
  fun w =>
    if redis_up w then (Ok tt, set_redis_db (delete key) w)
    else (Raise ConnectionError, w).

(** [redis_client.flushdb()] *)
Definition redis_client_flushdb : M unit :=
  fun w =>
    if redis_up w then (Ok tt, set_redis_db (fun _ => ∅) w)
    else (Raise ConnectionError, w).

(** [redis_client.ping()] *)
Definition redis_client_ping : M bool :=
  fun w => if redis_up w then (Ok true, w) else (Raise ConnectionError, w).

(** File operations raise [OSError] when the disk does not work. *)
Definition disk_op {A} (m : M A) : M A :=
  fun w => if disk_ok w then m w else (Raise OSError, w).

(** [file_path.exists()] *)
Definition file_exists (path : string) : M bool :=
  disk_op (gets (fun w => bool_decide (is_Some (cache_files w !! path)))).

(** [file_path.stat().st_mtime] *)
Definition file_mtime (path : string) : M Z :=
  disk_op (fun w =>
    match cache_files w !! path with
    | Some (_, mtime) => (Ok mtime, w)
    | None => (Raise OSError, w)
    end).

(** [pickle.load(open(file_path, 'rb'))] *)
Definition file_load (path : string) : M pyval :=
  disk_op (fun w =>
    match cache_files w !! path with
    | Some (v, _) => (Ok v, w)
    | None => (Raise OSError, w)
    end).

(** [pickle.dump(value, open(file_path, 'wb'))] *)
Definition file_dump (path : string) (v : pyval) : M unit :=
  disk_op (fun w => (Ok tt, set_cache_files <[path := (v, now w)]> w)).

(** [file_path.unlink(missing_ok=True)] *)
Definition file_unlink (path : string) : M unit :=
  disk_op (modify (set_cache_files (delete path))).

(** [os.path.exists(filepath)] for a snapshot file. *)
Definition json_exists (path : string) : M bool :=
  log (EvDiskRead path) ;;
  disk_op (gets (fun w => bool_decide (is_Some (json_files w !! path)))).

(** [json.load(open(filepath, 'r'))] *)
Definition json_load (path : string) : M pyval :=
  disk_op (fun w =>
    match json_files w !! path with
    | Some (JsonDoc v) => (Ok v, w)
    | Some Garbled => (Raise JSONDecodeError, w)
    | None => (Raise OSError, w)
    end).

(** [json.dump(data, open(filepath, 'w'))] *)
Definition json_dump (path : string) (v : pyval) : M unit :=
  log (EvDiskWrite path) ;;
  disk_op (modify (set_json_files <[path := JsonDoc v]>)).

(** ** [class RedisCache] ([app/redis/redis_cache.py]) *)

(** [ping] *)
Definition ping : M bool :=
  use <- gets use_redis ;;
  if negb use then ret false
  else try_except redis_client_ping
         (fun _ => modify (set_use_redis false) ;; ret false).

(** [_get_file_path] *)
Definition _get_file_path (key : string) : string :=
  let safe_key :=
    replace_char "?" "_" (replace_char ":" "_" (replace_char "/" "_" key)) in
  TEMP_DIR ++ "/" ++ safe_key ++ ".cache".

(** [get]: the fast tier first, then the file; a file older than [self.ttl]
    is removed and reported absent.  Whatever the file tier raises, the
    overflow of [timedelta(seconds=self.ttl)] included, is caught and the
    entry reported absent. *)
Definition get (key : string) : M pyval :=
  log (EvCacheGet key) ;;
  use <- gets use_redis ;;
  data <- (if use
           then try_except (redis_client_get key) (fun _ => ret None)
           else ret None) ;;
  match data with
  | Some v => ret v
  | None =>
      try_except
        (let file_path := _get_file_path key in
         ex <- file_exists file_path ;;
         if ex then
           t <- gets ttl ;;
           stale <- (if t >? 0 then
                       modified_time <- file_mtime file_path ;;
                       n <- gets now ;;
                       limit <- timedelta t ;;
                       ret (n - modified_time >? limit)
                     else ret false) ;;
           if stale then file_unlink file_path ;; ret PNone
           else file_load file_path
         else ret PNone)
        (fun _ => ret PNone)
  end.

(** [set]: [success] starts [False], takes the answer of Redis when Redis is
    in use, and becomes [True] when the file is written. *)
Definition set (key : string) (value : pyval) (ttl_arg : option Z) : M bool :=
  log (EvCacheSet key) ;;
  t <- match ttl_arg with Some t => ret t | None => gets ttl end ;;
  use <- gets use_redis ;;
  success <- (if use
              then try_except
                     (if t >? 0 then redis_client_setex key t value
                      else redis_client_set key value)
                     (fun _ => ret false)
              else ret false) ;;
  try_except
    (file_dump (_get_file_path key) value ;; ret true)
    (fun _ => ret success).

(** [delete] *)
Definition delete_ (key : string) : M bool :=
  log (EvCacheDelete key) ;;
  use <- gets use_redis ;;
  success <- (if use
              then try_except (redis_client_delete key ;; ret true)
                     (fun _ => ret false)
              else ret false) ;;
  try_except
    (let file_path := _get_file_path key in
     ex <- file_exists file_path ;;
     (if ex then file_unlink file_path else ret tt) ;;
     ret true)
    (fun _ => ret success).

(** [flush] *)
Definition flush : M bool :=
  use <- gets use_redis ;;
  success <- (if use
              then try_except (redis_client_flushdb ;; ret true)
                     (fun _ => ret false)
              else ret false) ;;
  try_except
    (disk_op (modify (set_cache_files (fun _ => ∅))) ;; ret true)
    (fun _ => ret success).

Definition set_all_categories (categories : pyval) : M bool :=
  set "all_categories" categories None.

Definition get_all_categories : M pyval :=
  v <- get "all_categories" ;; ret (py_or v (PDict [])).

Definition set_category_data (category : string) (data : pyval) : M bool :=
  set ("category:" ++ category) data None.

Definition get_category_data (category : string) : M pyval :=
  v <- get ("category:" ++ category) ;; ret (py_or v (PList [])).

Definition set_item_data (category item_id : string) (data : pyval) : M bool :=
  set ("item:" ++ category ++ ":" ++ item_id) data None.

Definition get_item_data (category item_id : string) : M pyval :=
  v <- get ("item:" ++ category ++ ":" ++ item_id) ;; ret (py_or v (PDict [])).

Definition set_search_results (query : string) (results : pyval) : M bool :=
  set ("search:" ++ query) results (Some SEARCH_CACHE_TTL).

Definition get_search_results (query : string) : M pyval :=
  v <- get ("search:" ++ query) ;; ret (py_or v (PList [])).

(** ** Calls with positional arguments

    A call [f(a1, ..., an)] binds its positional arguments to the parameters
    of [f]; none of the methods below has a default, so a call with another
    number of arguments raises [TypeError] before the body runs.  The two
    item methods are called by the router with fewer arguments than they
    declare, and these calls go through the binders below.  The key parts
    are [str] objects at every call site of the program. *)

Definition as_str (v : pyval) : M string :=
  match v with
  | PStr s => ret s
  | _ => raise TypeError
  end.

(** A call of [redis_cache.set_item_data] with the given arguments, for
    [def set_item_data(self, category, item_id, data)] *)
Definition call_set_item_data (args : list pyval) : M bool :=
  match args with
  | [category; item_id; data] =>
      c <- as_str category ;;
      i <- as_str item_id ;;
      set_item_data c i data
  | _ => raise TypeError
  end.

(** A call of [redis_cache.get_item_data] with the given arguments, for
    [def get_item_data(self, category, item_id)] *)
Definition call_get_item_data (args : list pyval) : M pyval :=
  match args with
  | [category; item_id] =>
      c <- as_str category ;;
      i <- as_str item_id ;;
      get_item_data c i
  | _ => raise TypeError
  end.

(** ** The scraping collaborator ([app/scraper/wiki_scraper.py]) *)

(** [scrape_category(category_name)]: the pages of the remote wiki are
    outside the program; the world says what the call yields. *)
Definition scrape_category (category_name : string) : M pydict :=
  log (EvScrape category_name) ;;
  r <- gets (fun w => wiki w category_name) ;;
  match r with
  | Ok d => ret d
  | Raise e => raise e
  end.

(** [get_page_metadata(title)] *)
Definition get_page_metadata (title : string) : M pydict :=
  log (EvFetchItem title) ;;
  r <- gets (fun w => wiki_page w title) ;;
  match r with
  | Ok d => ret d
  | Raise e => raise e
  end.

(** ** The route handlers ([api/v1/wiki/router.py])

    A handler receives the cache as its parameter [redis], which the server
    fills through [Depends(get_redis_sync)]; the background task uses the
    module's instance [redis_cache] directly.  [app/redis/redis_cache.py]
    defines the class [RedisCache] and that one instance, and no
    [get_redis_sync]: the handlers are modelled as run on the instance, so
    that [redis.method(...)] is a call of [method] of [RedisCache] on the
    cache of the world.  [DATA_DIR] is [settings.TEMP_DIR]. *)

Definition DATA_DIR : string := TEMP_DIR.

(** [os.makedirs(path, exist_ok=True)] *)
Definition makedirs (path : string) : M unit := disk_op (ret tt).

(** ["".join(c if c.isalnum() else "_" for c in title)] *)
Definition safe_title (title : string) : string :=
  map_chars (fun c => if isalnum c then c else "_"%char) title.

(** The body of the background task [_scrape] that
    [scrape_category_async(category_name, ...)] creates. *)
Definition _scrape (category_name : string) : M unit :=
  try_except
    (result <- scrape_category category_name ;;
     (if truthy (PDict result) then
        set_category_data category_name (PDict result) ;;
        for_ result (fun '(title, item_data) =>
          call_set_item_data [PStr title; item_data] ;; ret tt)
      else ret tt) ;;
     try_except
       (let category_dir := DATA_DIR ++ "/" ++ category_name in
        makedirs category_dir ;;
        json_dump (DATA_DIR ++ "/" ++ category_name ++ ".json") (PDict result) ;;
        for_ result (fun '(title, item_data) =>
          json_dump (category_dir ++ "/" ++ safe_title title ++ ".json")
            item_data))
       (fun _ => ret tt))
    (fun _ => ret tt).

(** [scrape_category_async]: [background_tasks.add_task(_scrape)] *)
Definition scrape_category_async (category_name : string) : M pyval :=
  modify (set_background (fun q => (q ++ [category_name])%list)) ;;
  ret (PDict [("status", PStr "scraping started in the background")]).

(** The server runs a queued task once the response has been sent. *)
Definition run_background : M unit :=
  q <- gets background ;;
  match q with
  | [] => ret tt
  | category_name :: rest =>
      modify (set_background (fun _ => rest)) ;;
      _scrape category_name
  end.

(** All the tasks queued so far, in order. *)
Definition drain_background : M unit :=
  q <- gets background ;;
  for_ q (fun _ => run_background).

(** [refresh_category] *)
Definition refresh_category (category_name : string) : M pyval :=
  if negb (in_CATEGORIES category_name) && negb (String.eqb category_name "all")
  then raise (HTTPException 404)
  else if String.eqb category_name "all" then
    for_ CATEGORIES (fun '(cat_key, _) =>
      scrape_category_async cat_key ;; ret tt) ;;
    ret (PDict [("status", PStr "success")])
  else
    scrape_category_async category_name ;;
    ret (PDict [("status", PStr "success")]).

(** [needle in v] for a [str] needle. *)
Definition is_str (s : string) (v : pyval) : bool :=
  match v with
  | PStr t => String.eqb s t
  | _ => false
  end.

Definition py_in (s : string) (v : pyval) : M bool :=
  match v with
  | PDict d => ret (dict_mem s d)
  | PList l => ret (existsb (is_str s) l)
  | PStr t => ret (contains s t)
  | _ => raise TypeError
  end.

(** [v[key]] for a [str] key. *)
Definition py_getitem (key : string) (v : pyval) : M pyval :=
  match v with
  | PDict d =>
      match dict_get key d with
      | Some x => ret x
      | None => raise KeyError
      end
  | _ => raise TypeError
  end.

Section Router.

(** Building a [WikiItem] from the keys of a record is pydantic's validation
    of the record against the schema of [api/schemas.py]; [None] stands for
    a validation error. *)
Variable wiki_item : Type.
Variable WikiItem : pydict -> option wiki_item.

Inductive response : Type :=
| CategoryResult (category : string) (total : Z) (items : list wiki_item)
| JSONResponse (status_code : Z)
| ItemResult (item : wiki_item)
| SearchResult (query : string) (total : Z) (results : list wiki_item).

(** One step of the formatting loops: a record that does not validate is
    logged and left out. *)
Definition format_item (item_data : pyval) : option wiki_item :=
  match item_data with
  | PDict d => WikiItem d
  | _ => None
  end.

(** [get_category_items], up to the pagination: the category data the
    request resolves to, or the response that ends it early. *)
Definition resolve_category_data (category_name : string) (refresh : bool)
    : M (response + pyval) :=
  let need_refresh := refresh in
  category_data <- (if negb need_refresh
                    then get_category_data category_name
                    else ret PNone) ;;
  if negb (truthy category_data) || need_refresh then
    try_except
      (scrape_category_async category_name ;;
       category_data <-
         (if negb (truthy category_data) then
            try_except
              (let filepath := DATA_DIR ++ "/" ++ category_name ++ ".json" in
               ex <- json_exists filepath ;;
               if ex then json_load filepath else ret category_data)
              (fun _ => ret category_data)
          else ret category_data) ;;
       if negb (truthy category_data) then ret (inl (JSONResponse 202))
       else ret (inr category_data))
      (fun _ =>
         if negb (truthy category_data) then raise (HTTPException 500)
         else ret (inr category_data))
  else ret (inr category_data).

(** [get_category_items], the pagination of the resolved data. *)
Definition paginate
    (category_name : string) (category_data : pyval) (limit offset : Z)
    : M response :=
  match category_data with
  | PDict d =>
      let items_list := dict_values d in
      let total_items := Z.of_nat (length items_list) in
      if offset >=? total_items then
        ret (CategoryResult category_name total_items [])
      else
        let paginated_items := py_slice items_list offset (offset + limit) in
        let formatted_items := omap format_item paginated_items in
        ret (CategoryResult category_name total_items formatted_items)
  | _ => raise AttributeError
  end.

(** [get_category_items] *)
Definition get_category_items
    (category_name : string) (limit offset : Z) (refresh : bool) : M response :=
  if negb (in_CATEGORIES category_name) then raise (HTTPException 404)
  else
    resolved <- resolve_category_data category_name refresh ;;
    match resolved with
    | inl early => ret early
    | inr category_data => paginate category_name category_data limit offset
    end.

(** The loop of [get_item_details] over [CATEGORIES.items()]: the first
    category whose cached snapshot holds the title ends it. *)
Fixpoint scan_categories
    (cats : list (string * string)) (item_title : string) (item_data : pyval)
    : M pyval :=
  match cats with
  | [] => ret item_data
  | (cat_key, _) :: rest =>
      category_data <- get_category_data cat_key ;;
      hit <- (if truthy category_data then py_in item_title category_data
              else ret false) ;;
      if hit then
        found <- py_getitem item_title category_data ;;
        call_set_item_data [PStr item_title; found] ;;
        ret found
      else scan_categories rest item_title item_data
  end.

(** [get_item_details] *)
Definition get_item_details (item_title : string) : M response :=
  try_except
    (item_data <- call_get_item_data [PStr item_title] ;;
     item_data <- (if negb (truthy item_data)
                   then scan_categories CATEGORIES item_title item_data
                   else ret item_data) ;;
     item_data <-
       (if negb (truthy item_data) then
          try_except
            (fetched <- get_page_metadata item_title ;;
             try_except
               (if truthy (PDict fetched) then
                  call_set_item_data [PStr item_title; PDict fetched] ;;
                  for_ CATEGORIES (fun '(category, _) =>
                    let category_dir := DATA_DIR ++ "/" ++ category in
                    makedirs category_dir ;;
                    json_dump
                      (category_dir ++ "/" ++ safe_title item_title ++ ".json")
                      (PDict fetched))
                else ret tt)
               (fun _ => ret tt) ;;
             ret (PDict fetched))
            (fun _ => ret item_data)
        else ret item_data) ;;
     if negb (truthy item_data) then raise (HTTPException 404)
     else
       match format_item item_data with
       | Some item => ret (ItemResult item)
       | None => raise TypeError
       end)
    (fun e =>
       match e with
       | HTTPException _ => raise e
       | _ => raise (HTTPException 500)
       end).

(** The text of a field that must be a [str]: [v.lower()]. *)
Definition lower_of (v : pyval) : M string :=
  match v with
  | PStr s => ret (lower s)
  | _ => raise AttributeError
  end.

(** One section of a record against the query. *)
Definition section_matches (normalized_query : string) (section : pyval)
    : M bool :=
  match section with
  | PDict d =>
      t <- lower_of (default (PStr "") (dict_get "title" d)) ;;
      if contains normalized_query t then ret true
      else
        c <- lower_of (default (PStr "") (dict_get "content" d)) ;;
        ret (contains normalized_query c)
  | _ => raise AttributeError
  end.

Fixpoint any_section (normalized_query : string) (sections : list pyval)
    : M bool :=
  match sections with
  | [] => ret false
  | section :: rest =>
      m <- section_matches normalized_query section ;;
      if m then ret true else any_section normalized_query rest
  end.

(** The three tests of [search_in_cache] on one record: title, then
    description, then sections. *)
Definition item_matches (normalized_query title : string) (d : pydict)
    : M bool :=
  if contains normalized_query (lower title) then ret true
  else
    let description := default PNone (dict_get "description" d) in
    by_description <- (if truthy description
                       then t <- lower_of description ;;
                            ret (contains normalized_query t)
                       else ret false) ;;
    if by_description then ret true
    else
      let sections := default PNone (dict_get "sections" d) in
      if truthy sections then
        match sections with
        | PList l => any_section normalized_query l
        | PDict _ | PStr _ => raise AttributeError
        | _ => raise TypeError
        end
      else ret false.

(** The category of the scan is added to the record's ["categories"]. *)
Definition tag_category (cat_key : string) (d : pydict) : M pydict :=
  let d1 := if dict_mem "categories" d then d
            else dict_set "categories" (PList []) d in
  match dict_get "categories" d1 with
  | Some (PList cs) =>
      if existsb (is_str cat_key) cs then ret d1
      else ret (dict_set "categories" (PList (cs ++ [PStr cat_key])%list) d1)
  | Some (PStr s) =>
      if contains cat_key s then ret d1 else raise AttributeError
  | Some (PDict dd) =>
      if dict_mem cat_key dd then ret d1 else raise AttributeError
  | _ => raise TypeError
  end.

(** The loop over [category_data.items()].  A record that is not a [dict]
    has no [get]; when its title already matched, the first thing that
    fails is the access to its ["categories"]. *)
Fixpoint search_snapshot
    (normalized_query cat_key : string) (items : pydict) (results : list pyval)
    : M (list pyval) :=
  match items with
  | [] => ret results
  | (title, item_data) :: rest =>
      match item_data with
      | PDict d =>
          item_matched <- item_matches normalized_query title d ;;
          if item_matched then
            d' <- tag_category cat_key d ;;
            search_snapshot normalized_query cat_key rest
              (results ++ [PDict d'])%list
          else search_snapshot normalized_query cat_key rest results
      | _ =>
          if contains normalized_query (lower title) then raise TypeError
          else raise AttributeError
      end
  end.

(** [categories] as a condition, and [x in categories]. *)
Definition has_filter (categories : option (list string)) : bool :=
  match categories with
  | Some (_ :: _) => true
  | _ => false
  end.

Definition in_filter (x : string) (categories : option (list string)) : bool :=
  existsb (String.eqb x) (default [] categories).

(** The loop over [CATEGORIES.items()]. *)
Fixpoint search_categories
    (normalized_query : string) (categories : option (list string))
    (cats : list (string * string)) (results : list pyval) : M (list pyval) :=
  match cats with
  | [] => ret results
  | (cat_key, cat_name) :: rest =>
      if has_filter categories && negb (in_filter cat_key categories)
         && negb (in_filter cat_name categories)
      then search_categories normalized_query categories rest results
      else
        category_data <- get_category_data cat_key ;;
        if negb (truthy category_data)
        then search_categories normalized_query categories rest results
        else
          match category_data with
          | PDict items =>
              results' <- search_snapshot normalized_query cat_key items
                            results ;;
              search_categories normalized_query categories rest results'
          | _ => raise AttributeError
          end
  end.

(** [any(cat in item.get("categories", []) for cat in categories)] *)
Definition in_any_category (cats : list string) (item : pyval) : M bool :=
  match item with
  | PDict d =>
      match default (PList []) (dict_get "categories" d) with
      | PList cs => ret (existsb (fun cat => existsb (is_str cat) cs) cats)
      | PStr s => ret (existsb (fun cat => contains cat s) cats)
      | PDict dd => ret (existsb (fun cat => dict_mem cat dd) cats)
      | _ => raise TypeError
      end
  | _ => raise AttributeError
  end.

Fixpoint filter_cached (cats : list string) (cached : list pyval)
    : M (list pyval) :=
  match cached with
  | [] => ret []
  | item :: rest =>
      keep <- in_any_category cats item ;;
      rest' <- filter_cached cats rest ;;
      ret (if keep then item :: rest' else rest')
  end.

(** The cache key of a search: [query.lower().strip()]. *)
Definition normalize_query (query : string) : string := strip (lower query).

(** [search_in_cache].  After the scan the results are cut to
    [settings.MAX_SEARCH_RESULTS], a name [core/config.py] does not declare
    (it declares [SEARCH_MAX_RESULTS]). *)
Definition search_in_cache (query : string) (categories : option (list string))
    : M pyval :=
  let normalized_query := normalize_query query in
  cache_results <- get_search_results normalized_query ;;
  if truthy cache_results then
    if has_filter categories then
      match cache_results with
      | PList l => r <- filter_cached (default [] categories) l ;; ret (PList r)
      | PDict _ | PStr _ => raise AttributeError
      | _ => raise TypeError
      end
    else ret cache_results
  else
    results <- search_categories normalized_query categories CATEGORIES [] ;;
    max_search_results <- settings_int "MAX_SEARCH_RESULTS" ;;
    let results := py_slice results 0 max_search_results in
    set_search_results normalized_query (PList results) ;;
    ret (PList results).

(** [search_items] *)
Definition search_items
    (q : string) (categories : option (list string)) (limit offset : Z)
    : M response :=
  if (len q =? 0) || (len (strip q) <? 2) then raise (HTTPException 400)
  else
    try_except
      (results <- search_in_cache q categories ;;
       match results with
       | PList l =>
           let total_results := Z.of_nat (length l) in
           let paginated_results := py_slice l offset (offset + limit) in
           ret (SearchResult q total_results
                  (omap format_item paginated_results))
       | PStr s => ret (SearchResult q (len s) [])
       | _ => raise TypeError
       end)
      (fun _ => raise (HTTPException 500)).

End Router.

Arguments CategoryResult {wiki_item} category total items.
Arguments JSONResponse {wiki_item} status_code.
Arguments ItemResult {wiki_item} item.
Arguments SearchResult {wiki_item} query total results.
Arguments format_item {wiki_item} WikiItem item_data.
Arguments resolve_category_data {wiki_item} category_name refresh.
Arguments paginate {wiki_item} WikiItem category_name category_data limit
  offset.
Arguments get_category_items {wiki_item} WikiItem category_name limit offset
  refresh.
Arguments get_item_details {wiki_item} WikiItem item_title.
Arguments search_items {wiki_item} WikiItem q categories limit offset.

(** ** The other handlers of the router *)

(** A call [redis_cache.name(...)] for a name that [RedisCache] does not
    define: the attribute lookup raises before anything is called.  The
    router uses two such names, [clear_all_cache] and
    [invalidate_category]. *)
Definition missing_method (name : string) (args : list pyval) : M pyval :=
  raise AttributeError.

(** The loop of [clear_cache] over the categories to clear. *)
Fixpoint invalidate_each (categories cleared : list string)
    : M (list string) :=
  match categories with
  | [] => ret cleared
  | cat :: rest =>
      done <- missing_method "invalidate_category" [PStr cat] ;;
      if truthy done then invalidate_each rest (cleared ++ [cat])%list
      else invalidate_each rest cleared
  end.

(** [clear_cache]; the messages are given in English. *)
Definition clear_cache (categories : option (list string)) : M pyval :=
  try_except
    (if negb (has_filter categories) then
       result <- missing_method "clear_all_cache" [] ;;
       ret (PDict [("status", PStr (if truthy result then "success"
                                    else "warning"));
                   ("message", PStr "the whole cache has been cleared")])
     else
       cleared <- invalidate_each (default [] categories) [] ;;
       let message :=
         match cleared with
         | [] => "no category has been cleared"
         | _ => "the cache of the categories [" ++ String.concat ", " cleared
                ++ "] has been cleared"
         end in
       ret (PDict [("status", PStr (match cleared with
                                    | [] => "warning"
                                    | _ => "success"
                                    end));
                   ("message", PStr message)]))
    (fun _ => raise (HTTPException 500)).

Section Directory.

(** [get_all_wiki_categories()] asks the remote wiki and answers the names
    it could read, never raising; the names are a parameter here. *)
Variable all_wiki_categories : list string.

Definition get_all_wiki_categories : M pyval :=
  ret (PList (map PStr all_wiki_categories)).

(** The loop of [get_categories] over [CATEGORIES.keys()]: a key that is
    not in [categories] is appended to it. *)
Fixpoint add_category_keys (keys : list string) (categories : pyval)
    : M pyval :=
  match keys with
  | [] => ret categories
  | cat_key :: rest =>
      present <- py_in cat_key categories ;;
      if present then add_category_keys rest categories
      else
        match categories with
        | PList l => add_category_keys rest (PList (l ++ [PStr cat_key])%list)
        | _ => raise AttributeError
        end
  end.

(** [get_categories] *)
Definition get_categories : M pyval :=
  try_except
    (categories <- get_all_categories ;;
     categories <-
       (if negb (truthy categories) then
          categories <- get_all_wiki_categories ;;
          (if truthy categories
           then set_all_categories categories ;; ret tt
           else ret tt) ;;
          ret categories
        else ret categories) ;;
     let categories :=
       if negb (truthy categories) then PList [] else categories in
     categories <- add_category_keys (map fst CATEGORIES) categories ;;
     ret (PDict [("categories", categories)]))
    (fun _ => raise (HTTPException 500)).

End Directory.

(** ** Notions the properties are stated with *)

(** Running [m] relates the world before to the world after by [P]. *)
Definition keeps {A} (P : world -> world -> Prop) (m : M A) : Prop :=
  forall w, P w (snd (m w)).

(** How often the scraping collaborator has been executed for a category. *)
Definition is_scrape_of (category : string) (e : event) : bool :=
  match e with
  | EvScrape c => String.eqb category c
  | _ => false
  end.

Definition scrape_count (category : string) (w : world) : nat :=
  length (List.filter (is_scrape_of category) (trace w)).

(** The scraper has run as often for [category] in [w'] as in [w], and the
    same tasks are queued. *)
Definition same_scrapes (category : string) (w w' : world) : Prop :=
  scrape_count category w' = scrape_count category w /\
  background w' = background w.

(** How many tasks for a category are queued. *)
Definition queued (category : string) (w : world) : nat :=
  length (List.filter (String.eqb category) (background w)).

(** The files of a category: the cache entry and the snapshot on disk. *)
Definition category_cache_path (category : string) : string :=
  _get_file_path ("category:" ++ category).

Definition snapshot_path (category : string) : string :=
  DATA_DIR ++ "/" ++ category ++ ".json".




(** The snapshot of a category that a request loads from disk: the document
    of the file, when the disk works, the file is there and parses, and the
    document is not empty. *)
Definition durable_snapshot (category : string) (w : world) : option pyval :=
  if disk_ok w then
    match json_files w !! snapshot_path category with
    | Some (JsonDoc doc) => if truthy doc then Some doc else None
    | _ => None
    end
  else None.

(** What the cache operations do not touch: the task queue, the snapshots
    on disk and the state of the disk. *)
Definition same_surroundings (w w' : world) : Prop :=
  background w' = background w /\
  json_files w' = json_files w /\
  disk_ok w' = disk_ok w.

(** A number of seconds that [timedelta] accepts. *)
Definition timedelta_ok (t : Z) : Prop :=
  Z.abs (t / 86400) <= TIMEDELTA_MAX_DAYS.

(** An empty container, as a cached value. *)
Definition empty_container (v : pyval) : Prop :=
  v = PDict [] \/ v = PList [] \/ v = PStr "".

(** Two characters that are the same letter in either case. *)
Definition same_letter (a b : ascii) : Prop :=
  a = b \/
  (isupper a = true /\ code b = (code a + 32)%N) \/
  (isupper b = true /\ code a = (code b + 32)%N).

Inductive same_letters : string -> string -> Prop :=
| same_letters_nil : same_letters EmptyString EmptyString
| same_letters_cons a b s t :
    same_letter a b -> same_letters s t ->
    same_letters (String a s) (String b t).

Inductive blank : string -> Prop :=
| blank_nil : blank EmptyString
| blank_cons c s : isspace c = true -> blank s -> blank (String c s).

(** Two queries that differ only in letter case and in the whitespace
    before and after the text. *)
Definition differ_in_case_and_outer_space (q1 q2 : string) : Prop :=
  exists l1 c1 r1 l2 c2 r2,
    q1 = l1 ++ c1 ++ r1 /\ q2 = l2 ++ c2 ++ r2 /\
    blank l1 /\ blank r1 /\ blank l2 /\ blank r2 /\ same_letters c1 c2.

(** The normalization the specification words: lowercase, trim, and every
    run of inner whitespace collapsed to one space. *)
Fixpoint collapse (s : string) : string :=
  match s with
  | EmptyString => EmptyString
  | String c s' =>
      if isspace c then
        match s' with
        | EmptyString => String " " EmptyString
        | String c' _ =>
            if isspace c' then collapse s' else String " " (collapse s')
        end
      else String c (collapse s')
  end.

Definition spec_normalize (query : string) : string :=
  collapse (strip (lower query)).

(** ** Sample worlds *)

Definition page (title : string) : pyval :=
  PDict [("title", PStr title);
         ("url", PStr ("https://cyberpunk.fandom.com/wiki/" ++ title))].

(** The default configuration on an empty disk: no Redis, an hour of TTL. *)
Definition world0 : world :=
  World 0 USE_REDIS_CACHE REDIS_TTL false ∅ true ∅ ∅
        (fun _ => Ok []) (fun _ => Raise ScraperError) [] [].

(** The same with Redis in use and answering. *)
Definition world_redis : world :=
  World 0 true REDIS_TTL true ∅ true ∅ ∅
        (fun _ => Ok []) (fun _ => Raise ScraperError) [] [].


Definition characters_snapshot : pyval :=
  PDict [("Johnny Silverhand", page "Johnny Silverhand");
         ("Judy Alvarez", page "Judy Alvarez")].

(** The characters are cached and saved on disk; the wiki now yields no
    member for any category. *)
Definition world_characters : world :=
  World 0 USE_REDIS_CACHE REDIS_TTL false ∅ true
        {[ category_cache_path "characters" := (characters_snapshot, 0) ]}
        {[ snapshot_path "characters" := JsonDoc characters_snapshot ]}
        (fun _ => Ok []) (fun _ => Raise ScraperError) [] [].

(** A snapshot of [n] pages, named x, xx, xxx, ... *)
Fixpoint pages (n : nat) (name : string) : pydict :=
  match n with
  | O => []
  | S n' => (name, page name) :: pages n' (String "x" name)
  end.

(** Twenty-five vehicles are cached. *)
Definition world_vehicles : world :=
  World 0 USE_REDIS_CACHE REDIS_TTL false ∅ true
        {[ category_cache_path "vehicles" := (PDict (pages 25 "x"), 0) ]} ∅
        (fun _ => Ok []) (fun _ => Raise ScraperError) [] [].

(** An empty snapshot is cached for the weapons; an older one is on disk. *)
Definition world_weapons : world :=
  World 0 USE_REDIS_CACHE REDIS_TTL false ∅ true
        {[ category_cache_path "weapons" := (PDict [], 0) ]}
        {[ snapshot_path "weapons" := JsonDoc (PDict (pages 3 "x")) ]}
        (fun _ => Ok []) (fun _ => Raise ScraperError) [] [].

(** The Redis server stops or starts answering. *)
Definition set_redis_up (b : bool) (w : world) : world :=
  World (now w) (use_redis w) (ttl w) b (redis_db w) (disk_ok w)
        (cache_files w) (json_files w) (wiki w) (wiki_page w) (background w)
        (trace w).

(** A character of the ASCII set. *)
Definition is_ascii (c : ascii) : bool := (code c <? 128)%N.

(** Every character of a string passes a test. *)
Fixpoint all_chars (p : ascii -> bool) (s : string) : bool :=
  match s with
  | EmptyString => true
  | String c s' => p c && all_chars p s'
  end.

(** The items of a page of a snapshot. *)
Definition page_items {wiki_item : Type} (WikiItem : pydict -> option wiki_item)
    (category_name : string) (d : pydict) (limit offset : Z) (w : world)
    : list wiki_item :=
  match fst (paginate WikiItem category_name (PDict d) limit offset w) with
  | Ok (CategoryResult _ _ items) => items
  | _ => []
  end.

(** Nothing has been stored between [w] and [w']: Redis, the snapshots on
    disk and the queue are as they were, and the files of the cache are
    among those there were. *)
Definition only_evicted (w w' : world) : Prop :=
  redis_db w' = redis_db w /\
  json_files w' = json_files w /\
  background w' = background w /\
  cache_files w' ⊆ cache_files w.

(** The default configuration with [REDIS_TTL = 0]. *)
Definition world_no_ttl : world :=
  World 0 USE_REDIS_CACHE 0 false ∅ true ∅ ∅
        (fun _ => Ok []) (fun _ => Raise ScraperError) [] [].

(** Redis in use, not answering, and holding an entry without expiry. *)
Definition world_redis_stale : world :=
  World 0 true REDIS_TTL false {[ "k" := (PStr "old", None) ]} true ∅ ∅
        (fun _ => Ok []) (fun _ => Raise ScraperError) [] [].

(** The wiki yields two characters. *)
Definition world_wiki : world :=
  World 0 USE_REDIS_CACHE REDIS_TTL false ∅ true ∅ ∅
        (fun c => if String.eqb c "characters"
                  then Ok [("Johnny Silverhand", page "Johnny Silverhand");
                           ("Judy Alvarez", page "Judy Alvarez")]
                  else Ok [])
        (fun _ => Raise ScraperError) [] [].

(** The wiki cannot be reached. *)
Definition world_wiki_down : world :=
  World 0 USE_REDIS_CACHE REDIS_TTL false ∅ true
        {[ category_cache_path "characters" := (characters_snapshot, 0) ]}
        {[ snapshot_path "characters" := JsonDoc characters_snapshot ]}
        (fun _ => Raise ScraperError) (fun _ => Raise ScraperError) [] [].

(** A computation that neither reads nor changes the world. *)
Definition stateless {A} (m : M A) : Prop :=
  exists r, forall w, m w = (r, w).

(** The characters are cached in the file tier; Redis is in use and does
    not answer. *)
Definition world_redis_down_cached : world :=
  set_use_redis true world_characters.

(** * Properties *)

(** ** Strings *)

Example lower_strip_ex : strip (lower " Ripperdoc ") = "ripperdoc".
Proof. reflexivity. Qed.

Example py_slice_ex : py_slice [1; 2; 3; 4; 5] 3 8 = [4; 5].
Proof. reflexivity. Qed.

Example py_slice_neg : py_slice [1; 2; 3; 4; 5] (-2) 5 = [4; 5].
Proof. reflexivity. Qed.

Example get_file_path_ex :
  _get_file_path "search:a/b?c" = "data/temp/search_a_b_c.cache".
Proof. reflexivity. Qed.

(** ** The tiered cache *)

Ltac wsimpl :=
  cbv [set_now set_use_redis set_redis_db set_cache_files set_json_files
       set_background set_trace elapse] in *;
  cbn [now use_redis ttl redis_up redis_db disk_ok cache_files json_files
       wiki wiki_page background trace fst snd] in *.

Ltac run :=
  cbv [bind ret raise try_except gets modify log disk_op] in *; wsimpl.

(** The Redis commands raise exactly when the server does not answer, and
    the file is written exactly when the disk works. *)
Lemma redis_client_setex_raises key t v w :
  (exists e, fst (redis_client_setex key t v w) = Raise e) <-> redis_up w = false.
Proof.
  unfold redis_client_setex. destruct (redis_up w); cbn; split; intros H;
    try discriminate; eauto.
  destruct H as [e H]. discriminate.
Qed.

Lemma redis_client_set_raises key v w :
  (exists e, fst (redis_client_set key v w) = Raise e) <-> redis_up w = false.
Proof.
  unfold redis_client_set. destruct (redis_up w); cbn; split; intros H;
    try discriminate; eauto.
  destruct H as [e H]. discriminate.
Qed.

Lemma file_dump_raises path v w :
  (exists e, fst (file_dump path v w) = Raise e) <-> disk_ok w = false.
Proof.
  unfold file_dump, disk_op. destruct (disk_ok w); cbn; split; intros H;
    try discriminate; eauto.
  destruct H as [e H]. discriminate.
Qed.

(** What [set] answers, whatever the tiers do. *)
Lemma set_result key value ttl_arg w :
  fst (set key value ttl_arg w) = Ok (use_redis w && redis_up w || disk_ok w).
Proof.
  unfold set, redis_client_setex, redis_client_set, file_dump. run.
  destruct ttl_arg as [t|]; cbn;
    destruct (use_redis w) eqn:Hu, (redis_up w) eqn:Hr, (disk_ok w) eqn:Hd;
    cbn; rewrite ?Hu, ?Hr, ?Hd; cbn;
    repeat match goal with
           | |- context [if ?c then _ else _] => destruct c; cbn
           end;
    rewrite ?Hu, ?Hr, ?Hd; reflexivity.
Qed.



(** On tiers that both work, both stores take the entry; on tiers that both
    fail, neither does and [set] answers [False]. *)
Example set_on_both_tiers :
  let w' := snd (set "k" (PStr "v") (Some 300) world_redis) in
  fst (set "k" (PStr "v") (Some 300) world_redis) = Ok true /\
  redis_db w' !! "k" = Some (PStr "v", Some (seconds 300)) /\
  cache_files w' !! _get_file_path "k" = Some (PStr "v", 0).
Proof. vm_compute. repeat split; reflexivity. Qed.

Example set_on_no_tier :
  let w := World 0 true REDIS_TTL false ∅ false ∅ ∅
             (fun _ => Ok []) (fun _ => Raise ScraperError) [] [] in
  let w' := snd (set "k" (PStr "v") None w) in
  fst (set "k" (PStr "v") None w) = Ok false /\
  redis_db w' = redis_db w /\ cache_files w' = cache_files w.
Proof. vm_compute. repeat split; reflexivity. Qed.

(** The world [set] leaves when only the file tier is in use. *)
Lemma set_file_only key value ttl_arg w :
  use_redis w = false -> disk_ok w = true ->
  snd (set key value ttl_arg w) =
    set_cache_files <[_get_file_path key := (value, now w)]>
      (set_trace (fun t => (t ++ [EvCacheSet key])%list) w).
Proof.
  intros Hu Hd. unfold set, file_dump. run.
  destruct ttl_arg as [t|]; wsimpl; rewrite Hu; wsimpl; rewrite Hd; reflexivity.
Qed.

(** [timedelta] on a number of seconds it accepts. *)
Lemma timedelta_ok_gtb t :
  timedelta_ok t -> (Z.abs (t / 86400) >? TIMEDELTA_MAX_DAYS) = false.
Proof.
  unfold timedelta_ok. intros H.
  destruct (Z.gtb_spec (Z.abs (t / 86400)) TIMEDELTA_MAX_DAYS); [lia|reflexivity].
Qed.

Lemma timedelta_in_range t w :
  timedelta_ok t -> timedelta t w = (Ok (seconds t), w).
Proof. intros H. unfold timedelta. now rewrite timedelta_ok_gtb. Qed.

(** A value just written is read back, as soon as one tier took it and
    [self.ttl] is a span [timedelta] accepts. *)
Lemma get_after_set key value ttl_arg w :
  use_redis w && redis_up w || disk_ok w = true ->
  timedelta_ok (ttl w) ->
  fst (get key (snd (set key value ttl_arg w))) = Ok value.
Proof.
  intros H Hok.
  unfold get, set, redis_client_setex, redis_client_set, redis_client_get,
    file_dump, file_exists, file_mtime, file_load, file_unlink.
  run.
  destruct ttl_arg as [t|]; wsimpl;
    destruct (use_redis w) eqn:Hu, (redis_up w) eqn:Hr, (disk_ok w) eqn:Hd;
    wsimpl; try discriminate.
  all: repeat first
         [ rewrite lookup_insert_eq
         | rewrite (timedelta_in_range _ _ Hok)
         | rewrite bool_decide_eq_true_2 by eauto
         | match goal with
           | |- context [(?t >? 0)] => destruct (Z.gtb_spec t 0)
           | |- context [(?a <? ?b)] => destruct (Z.ltb_spec a b)
           | |- context [(?a - ?a >? ?b)] => destruct (Z.gtb_spec (a - a) b)
           end
         | progress wsimpl ].
  all: try reflexivity.
  all: unfold seconds in *; try lia.
Qed.

(** The file tier keeps no TTL of its own: whatever [ttl] the caller gave to
    [set], the entry is served until [self.ttl] has passed. *)
Lemma file_tier_ignores_call_ttl key value t dt w :
  use_redis w = false -> disk_ok w = true ->
  timedelta_ok (ttl w) ->
  0 <= dt <= seconds (ttl w) ->
  let w' := elapse dt (snd (set key value (Some t) w)) in
  fst (get key w') = Ok value /\
  cache_files (snd (get key w')) !! _get_file_path key = Some (value, now w).
Proof.
  intros Hu Hd Hok Hdt. rewrite set_file_only by assumption.
  unfold get, redis_client_get, file_exists, file_mtime, file_load,
    file_unlink.
  run. rewrite Hu. wsimpl. rewrite Hd. wsimpl.
  rewrite lookup_insert_eq, bool_decide_eq_true_2 by eauto. wsimpl.
  destruct (Z.gtb_spec (ttl w) 0); wsimpl; rewrite ?Hd; wsimpl;
    rewrite ?lookup_insert_eq; wsimpl;
    rewrite ?(timedelta_in_range _ _ Hok); wsimpl.
  - destruct (Z.gtb_spec (now w + dt - now w) (seconds (ttl w))); [lia|].
    rewrite ?Hd; wsimpl; rewrite ?lookup_insert_eq; wsimpl.
    rewrite ?lookup_insert_eq. auto.
  - rewrite ?lookup_insert_eq. auto.
Qed.

(** Once [self.ttl], a span [timedelta] accepts, has passed, the read
    reports the entry absent and removes the file. *)
Lemma get_evicts_after_cache_ttl key value t dt w :
  use_redis w = false -> disk_ok w = true ->
  0 < ttl w -> timedelta_ok (ttl w) -> seconds (ttl w) < dt ->
  let w' := elapse dt (snd (set key value (Some t) w)) in
  fst (get key w') = Ok PNone /\
  cache_files (snd (get key w')) !! _get_file_path key = None.
Proof.
  intros Hu Hd Ht Hok Hdt. rewrite set_file_only by assumption.
  unfold get, redis_client_get, file_exists, file_mtime, file_load,
    file_unlink.
  run. rewrite Hu. wsimpl. rewrite Hd. wsimpl.
  rewrite lookup_insert_eq, bool_decide_eq_true_2 by eauto. wsimpl.
  destruct (Z.gtb_spec (ttl w) 0); [|lia]. wsimpl. rewrite ?Hd. wsimpl.
  rewrite ?lookup_insert_eq. wsimpl.
  rewrite (timedelta_in_range _ _ Hok). wsimpl.
  destruct (Z.gtb_spec (now w + dt - now w) (seconds (ttl w))); [|lia].
  rewrite ?Hd; wsimpl. rewrite ?lookup_delete_eq. auto.
Qed.

(** C3. Under the default configuration, two seconds after
    [set("k", "v", ttl=1)] the entry is still served and its file is still
    there; with Redis in use the Redis entry has expired by then and the
    file answers in its place.  The eviction comes after [REDIS_TTL]. *)
Theorem set_ttl_one_outlives_its_ttl :
  let served (w : world) :=
    let w1 := snd (set "k" (PStr "v") (Some 1) w) in
    let w2 := elapse (seconds 2) w1 in
    fst (get "k" w1) = Ok (PStr "v") /\
    fst (get "k" w2) = Ok (PStr "v") /\
    cache_files (snd (get "k" w2)) !! _get_file_path "k" = Some (PStr "v", 0) in
  served world0 /\ served world_redis /\
  redis_db (snd (set "k" (PStr "v") (Some 1) world_redis)) !! "k"
    = Some (PStr "v", Some (seconds 1)) /\
  (let w3 := elapse (seconds 3601) (snd (set "k" (PStr "v") (Some 1) world0)) in
   fst (get "k" w3) = Ok PNone /\
   cache_files (snd (get "k" w3)) !! _get_file_path "k" = None).
Proof. vm_compute. repeat split; reflexivity. Qed.

(** ** What the cache operations leave alone

    For a reflexive and transitive [P] that does not look at the cache tiers
    nor at the cache events of the trace, every operation of [RedisCache]
    keeps [P]. *)

Section Frame.
Variable P : world -> world -> Prop.
Hypothesis P_refl : forall w, P w w.
Hypothesis P_trans : forall a b c, P a b -> P b c -> P a c.

Lemma keeps_ret {A} (a : A) : keeps P (ret a).
Proof. intros w. apply P_refl. Qed.

Lemma keeps_raise {A} (e : exn) : keeps P (raise (A:=A) e).
Proof. intros w. apply P_refl. Qed.

Lemma keeps_gets {A} (f : world -> A) : keeps P (gets f).
Proof. intros w. apply P_refl. Qed.

Lemma keeps_bind {A B} (m : M A) (k : A -> M B) :
  keeps P m -> (forall a, keeps P (k a)) -> keeps P (bind m k).
Proof.
  intros Hm Hk w. unfold bind. specialize (Hm w).
  destruct (m w) as [[a|e] w']; cbn in *; [|assumption].
  eapply P_trans; [eassumption|apply Hk].
Qed.

Lemma keeps_try_except {A} (m : M A) (h : exn -> M A) :
  keeps P m -> (forall e, keeps P (h e)) -> keeps P (try_except m h).
Proof.
  intros Hm Hh w. unfold try_except. specialize (Hm w).
  destruct (m w) as [[a|e] w']; cbn in *; [assumption|].
  eapply P_trans; [eassumption|apply Hh].
Qed.

Lemma keeps_disk_op {A} (m : M A) : keeps P m -> keeps P (disk_op m).
Proof.
  intros Hm w. unfold disk_op. destruct (disk_ok w); [apply Hm|apply P_refl].
Qed.

Lemma keeps_for_ {A} (l : list A) (body : A -> M unit) :
  (forall x, keeps P (body x)) -> keeps P (for_ l body).
Proof.
  intros Hb. induction l as [|x l IH]; cbn [for_].
  - apply keeps_ret.
  - apply keeps_bind; auto.
Qed.

Lemma keeps_modify (f : world -> world) :
  (forall w, P w (f w)) -> keeps P (modify f).
Proof. intros Hf w. apply Hf. Qed.

Lemma keeps_makedirs path : keeps P (makedirs path).
Proof. apply keeps_disk_op, keeps_ret. Qed.

Lemma keeps_as_str v : keeps P (as_str v).
Proof. destruct v; first [apply keeps_ret | apply keeps_raise]. Qed.

Lemma keeps_timedelta t : keeps P (timedelta t).
Proof.
  unfold timedelta. destruct (_ >? _); [apply keeps_raise|apply keeps_ret].
Qed.

Hypothesis P_trace :
  forall e w, (forall c, e <> EvScrape c) ->
              P w (set_trace (fun t => (t ++ [e])%list) w).
Hypothesis P_redis : forall f w, P w (set_redis_db f w).
Hypothesis P_files : forall f w, P w (set_cache_files f w).

Lemma keeps_log e : (forall c, e <> EvScrape c) -> keeps P (log e).
Proof. intros He w. apply P_trace, He. Qed.

Lemma keeps_redis_client_get key : keeps P (redis_client_get key).
Proof.
  intros w. unfold redis_client_get. destruct (redis_up w); apply P_refl.
Qed.

Lemma keeps_redis_client_setex key t v : keeps P (redis_client_setex key t v).
Proof.
  intros w. unfold redis_client_setex.
  destruct (redis_up w); [apply P_redis|apply P_refl].
Qed.

Lemma keeps_redis_client_set key v : keeps P (redis_client_set key v).
Proof.
  intros w. unfold redis_client_set.
  destruct (redis_up w); [apply P_redis|apply P_refl].
Qed.

Lemma keeps_file_exists path : keeps P (file_exists path).
Proof. apply keeps_disk_op, keeps_gets. Qed.

Lemma keeps_file_mtime path : keeps P (file_mtime path).
Proof.
  apply keeps_disk_op. intros w.
  destruct (cache_files w !! path) as [[? ?]|]; apply P_refl.
Qed.

Lemma keeps_file_load path : keeps P (file_load path).
Proof.
  apply keeps_disk_op. intros w.
  destruct (cache_files w !! path) as [[? ?]|]; apply P_refl.
Qed.

Lemma keeps_file_dump path v : keeps P (file_dump path v).
Proof. apply keeps_disk_op. intros w. apply P_files. Qed.

Lemma keeps_file_unlink path : keeps P (file_unlink path).
Proof. apply keeps_disk_op, keeps_modify. intros w. apply P_files. Qed.

Ltac keeps_step :=
  match goal with
  | |- keeps _ (bind _ _) => apply keeps_bind; [|intros ?]
  | |- keeps _ (try_except _ _) => apply keeps_try_except; [|intros ?]
  | |- keeps _ (ret _) => apply keeps_ret
  | |- keeps _ (raise _) => apply keeps_raise
  | |- keeps _ (gets _) => apply keeps_gets
  | |- keeps _ (log _) => apply keeps_log; discriminate
  | |- keeps _ (as_str _) => apply keeps_as_str
  | |- keeps _ (timedelta _) => apply keeps_timedelta
  | |- keeps _ (redis_client_get _) => apply keeps_redis_client_get
  | |- keeps _ (redis_client_setex _ _ _) => apply keeps_redis_client_setex
  | |- keeps _ (redis_client_set _ _) => apply keeps_redis_client_set
  | |- keeps _ (file_exists _) => apply keeps_file_exists
  | |- keeps _ (file_mtime _) => apply keeps_file_mtime
  | |- keeps _ (file_load _) => apply keeps_file_load
  | |- keeps _ (file_dump _ _) => apply keeps_file_dump
  | |- keeps _ (file_unlink _) => apply keeps_file_unlink
  | |- keeps _ (if ?b then _ else _) => destruct b
  | |- keeps _ (match ?x with _ => _ end) => destruct x
  end.

Lemma keeps_get key : keeps P (get key).
Proof. unfold get. repeat keeps_step. Qed.

Lemma keeps_set key value ttl_arg : keeps P (set key value ttl_arg).
Proof. unfold set. repeat keeps_step. Qed.

Lemma keeps_get_category_data category : keeps P (get_category_data category).
Proof.
  unfold get_category_data. apply keeps_bind; [apply keeps_get|].
  intros v. apply keeps_ret.
Qed.

Lemma keeps_get_search_results query : keeps P (get_search_results query).
Proof.
  unfold get_search_results. apply keeps_bind; [apply keeps_get|].
  intros v. apply keeps_ret.
Qed.

Lemma keeps_set_category_data category data :
  keeps P (set_category_data category data).
Proof. apply keeps_set. Qed.

Lemma keeps_call_set_item_data args : keeps P (call_set_item_data args).
Proof.
  unfold call_set_item_data, set_item_data.
  repeat first [keeps_step | apply keeps_set].
Qed.

Lemma keeps_call_get_item_data args : keeps P (call_get_item_data args).
Proof.
  unfold call_get_item_data, get_item_data.
  repeat first [keeps_step | apply keeps_get].
Qed.
End Frame.

(** ** The refresh tasks *)

Lemma scrape_count_log category e w :
  scrape_count category (set_trace (fun t => (t ++ [e])%list) w) =
  (scrape_count category w + if is_scrape_of category e then 1 else 0)%nat.
Proof.
  unfold scrape_count. wsimpl. rewrite List.filter_app, length_app. cbn.
  destruct (is_scrape_of category e); reflexivity.
Qed.

Lemma same_scrapes_refl category w : same_scrapes category w w.
Proof. split; reflexivity. Qed.

Lemma same_scrapes_trans category a b c :
  same_scrapes category a b -> same_scrapes category b c ->
  same_scrapes category a c.
Proof. intros [? ?] [? ?]. split; congruence. Qed.

Lemma same_scrapes_trace category e w :
  (forall c, e <> EvScrape c) ->
  same_scrapes category w (set_trace (fun t => (t ++ [e])%list) w).
Proof.
  intros He. split; [|reflexivity]. rewrite scrape_count_log.
  destruct e; cbn; try lia. now destruct (He category0).
Qed.

Lemma same_scrapes_redis category f w :
  same_scrapes category w (set_redis_db f w).
Proof. split; reflexivity. Qed.

Lemma same_scrapes_files category f w :
  same_scrapes category w (set_cache_files f w).
Proof. split; reflexivity. Qed.

Lemma keeps_json_dump category path v :
  keeps (same_scrapes category) (json_dump path v).
Proof.
  unfold json_dump.
  apply keeps_bind; [apply same_scrapes_trans| |intros _].
  - intros w. apply same_scrapes_trace. discriminate.
  - apply keeps_disk_op; [apply same_scrapes_refl|].
    intros w. split; reflexivity.
Qed.

(** Past the call of the scraper, the task does not run it again. *)
Lemma keeps_scrape_rest category category_name result :
  keeps (same_scrapes category)
    ((if truthy (PDict result) then
        set_category_data category_name (PDict result) ;;
        for_ result (fun '(title, item_data) =>
          call_set_item_data [PStr title; item_data] ;; ret tt)
      else ret tt) ;;
     try_except
       (let category_dir := DATA_DIR ++ "/" ++ category_name in
        makedirs category_dir ;;
        json_dump (DATA_DIR ++ "/" ++ category_name ++ ".json") (PDict result) ;;
        for_ result (fun '(title, item_data) =>
          json_dump (category_dir ++ "/" ++ safe_title title ++ ".json")
            item_data))
       (fun _ => ret tt)).
Proof.
  pose proof (same_scrapes_refl category) as Hr.
  pose proof (same_scrapes_trans category) as Ht.
  pose proof (same_scrapes_trace category) as He.
  pose proof (same_scrapes_redis category) as Hd.
  pose proof (same_scrapes_files category) as Hf.
  apply keeps_bind; [assumption| |intros _].
  - destruct (truthy (PDict result)); [|now apply keeps_ret].
    apply keeps_bind; [assumption| |intros _].
    + now apply keeps_set_category_data.
    + apply keeps_for_; [assumption..|]. intros [title item_data].
      apply keeps_bind; [assumption| |intros _; now apply keeps_ret].
      now apply keeps_call_set_item_data.
  - apply keeps_try_except; [assumption| |intros _; now apply keeps_ret].
    cbv zeta.
    apply keeps_bind; [assumption|now apply keeps_makedirs|intros _].
    apply keeps_bind; [assumption|apply keeps_json_dump|intros _].
    apply keeps_for_; [assumption..|]. intros [title item_data].
    apply keeps_json_dump.
Qed.

Lemma bind_run {A B} (m : M A) (k : A -> M B) w :
  bind m k w =
  match m w with
  | (Ok a, w1) => k a w1
  | (Raise e, w1) => (Raise e, w1)
  end.
Proof. reflexivity. Qed.

Lemma try_except_bind {A B} (m : M A) (k : A -> M B) h w :
  try_except (bind m k) h w =
  match m w with
  | (Ok a, w1) => try_except (k a) h w1
  | (Raise e, w1) => h e w1
  end.
Proof. unfold try_except, bind. destruct (m w) as [[a|e] w1]; reflexivity. Qed.

Lemma try_except_unit (m : M unit) w :
  fst (try_except m (fun _ => ret tt) w) = Ok tt.
Proof. unfold try_except. destruct (m w) as [[[]|e] w1]; reflexivity. Qed.

Lemma scrape_category_run category_name w :
  scrape_category category_name w =
  (wiki w category_name,
   set_trace (fun t => (t ++ [EvScrape category_name])%list) w).
Proof.
  unfold scrape_category. run. destruct (wiki w category_name); reflexivity.
Qed.

(** A task runs the scraper once, for its own category, and ends normally
    whatever happens inside. *)
Lemma _scrape_runs_scraper_once category category_name w :
  fst (_scrape category_name w) = Ok tt /\
  scrape_count category (snd (_scrape category_name w)) =
    (scrape_count category w
     + if String.eqb category category_name then 1 else 0)%nat /\
  background (snd (_scrape category_name w)) = background w.
Proof.
  split; [apply try_except_unit|].
  pose proof (scrape_count_log category (EvScrape category_name) w) as H1.
  cbn [is_scrape_of] in H1.
  unfold _scrape. rewrite try_except_bind, scrape_category_run.
  destruct (wiki w category_name) as [result|e].
  - match goal with
    | |- context [try_except ?m ?h ?w1] =>
        assert (Hk : keeps (same_scrapes category) (try_except m h))
    end.
    { apply keeps_try_except.
      - apply same_scrapes_trans.
      - apply keeps_scrape_rest.
      - intros _. apply keeps_ret, same_scrapes_refl. }
    match goal with
    | |- context [try_except ?m ?h ?w1] => destruct (Hk w1) as [Hc Hb]
    end.
    rewrite Hc, Hb, H1. split; reflexivity.
  - unfold ret. cbn [snd]. rewrite H1. split; reflexivity.
Qed.

(** Running the queue runs the scraper once for every queued task. *)
Lemma run_background_step category c rest w :
  background w = c :: rest ->
  fst (run_background w) = Ok tt /\
  scrape_count category (snd (run_background w)) =
    (scrape_count category w + if String.eqb category c then 1 else 0)%nat /\
  background (snd (run_background w)) = rest.
Proof.
  intros Hq.
  assert (E : run_background w = _scrape c (set_background (fun _ => rest) w)).
  { unfold run_background, bind at 1, gets. rewrite Hq. reflexivity. }
  rewrite E.
  destruct (_scrape_runs_scraper_once category c
              (set_background (fun _ => rest) w)) as (Hr & Hc & Hb).
  rewrite Hr, Hc, Hb. repeat split.
Qed.

Lemma for_run_background category l :
  forall w, length l = length (background w) ->
  fst (for_ l (fun _ : string => run_background) w) = Ok tt /\
  scrape_count category (snd (for_ l (fun _ : string => run_background) w)) =
    (scrape_count category w + queued category w)%nat /\
  background (snd (for_ l (fun _ : string => run_background) w)) = [].
Proof.
  induction l as [|x l IH]; intros w Hl; cbn [for_].
  - destruct (background w) eqn:Hq; [|discriminate].
    unfold queued. rewrite Hq. cbn. repeat split; auto; lia.
  - destruct (background w) as [|c rest] eqn:Hq; [discriminate|].
    destruct (run_background_step category c rest w Hq) as (Hr & Hc & Hb).
    unfold bind. destruct (run_background w) as [r w1]; cbn in *. subst r.
    injection Hl as Hl. rewrite <- Hb in Hl.
    destruct (IH w1 Hl) as (Hr' & Hc' & Hb').
    repeat split; [assumption| |assumption].
    rewrite Hc', Hc. unfold queued. rewrite Hb, Hq. cbn.
    destruct (String.eqb category c); cbn; lia.
Qed.

(** The refresh route of a configured category queues its task and nothing
    else. *)
Lemma refresh_category_configured category w :
  In category (map fst CATEGORIES) ->
  snd (refresh_category category w) =
    set_background (fun q => (q ++ [category])%list) w.
Proof.
  intros Hin. unfold refresh_category.
  assert (Hall : String.eqb category "all" = false).
  { cbn in Hin. intuition (subst; reflexivity). }
  rewrite Hall.
  destruct (in_CATEGORIES category) eqn:E; cbn [negb andb]; [reflexivity|].
  exfalso. unfold in_CATEGORIES in E. cbn in Hin, E.
  intuition (subst; discriminate).
Qed.

(** C1, as the code has it.  Every call of [scrape_category_async] queues
    one more task for its category, whatever is queued already, and running
    the queue executes the scraper once for every queued task: as many
    executions for a category as there were calls. *)
Theorem refresh_queues_one_task_per_call category w :
  snd (scrape_category_async category w) =
    set_background (fun q => (q ++ [category])%list) w /\
  queued category (snd (scrape_category_async category w)) =
    S (queued category w) /\
  scrape_count category (snd (drain_background w)) =
    (scrape_count category w + queued category w)%nat.
Proof.
  split; [reflexivity|]. split.
  - unfold queued. cbn. rewrite List.filter_app, length_app. cbn.
    rewrite String.eqb_refl. cbn. lia.
  - unfold drain_background, bind, gets.
    apply (for_run_background category (background w) w eq_refl).
Qed.

(** C1, as stated, fails: a second refresh of the characters, made while the
    first has not run, queues a second task, and the scraper is executed
    twice. *)
Lemma refresh_twice_scrapes_twice :
  let w1 := snd (refresh_category "characters" world0) in
  let w2 := snd (refresh_category "characters" w1) in
  background w1 = ["characters"] /\
  background w2 = ["characters"; "characters"] /\
  w2 <> w1 /\
  scrape_count "characters" (snd (drain_background w2)) = 2%nat.
Proof.
  cbv zeta. split; [reflexivity|]. split; [reflexivity|]. split.
  - intros H. apply (f_equal background) in H. discriminate H.
  - vm_compute. reflexivity.
Qed.

(** ** A refresh that finds nothing *)

(** When the scraper raises, the task changes nothing but the trace. *)
Lemma _scrape_failed_keeps_stores category_name e w :
  wiki w category_name = Raise e ->
  snd (_scrape category_name w) =
    set_trace (fun t => (t ++ [EvScrape category_name])%list) w.
Proof.
  intros Hw. unfold _scrape.
  rewrite try_except_bind, scrape_category_run, Hw. reflexivity.
Qed.

(** When the scraper yields no member, the cache tiers are left alone ... *)
Lemma _scrape_empty_keeps_cache category_name w :
  wiki w category_name = Ok [] ->
  cache_files (snd (_scrape category_name w)) = cache_files w /\
  redis_db (snd (_scrape category_name w)) = redis_db w.
Proof.
  intros Hw. unfold _scrape.
  rewrite try_except_bind, scrape_category_run, Hw.
  unfold makedirs, json_dump. cbn [truthy length Nat.eqb negb for_]. run.
  destruct (disk_ok w); wsimpl; split; reflexivity.
Qed.

(** ... and the snapshot on disk is replaced by an empty one. *)
Lemma _scrape_empty_overwrites_snapshot category_name w :
  wiki w category_name = Ok [] -> disk_ok w = true ->
  json_files (snd (_scrape category_name w)) =
    <[snapshot_path category_name := JsonDoc (PDict [])]> (json_files w).
Proof.
  intros Hw Hd. unfold _scrape.
  rewrite try_except_bind, scrape_category_run, Hw.
  unfold makedirs, json_dump. cbn [truthy length Nat.eqb negb for_]. run.
  rewrite Hd. wsimpl. rewrite ?Hd. wsimpl.
  reflexivity.
Qed.

(** When the scraper yields members, the category entry is written, the
    first [set_item_data(title, item_data)] raises for its missing
    argument, and the task ends there: nothing is saved on disk. *)
Lemma _scrape_nonempty_skips_disk category_name title item_data rest w :
  wiki w category_name = Ok ((title, item_data) :: rest) ->
  json_files (snd (_scrape category_name w)) = json_files w /\
  snd (_scrape category_name w) =
    snd (set_category_data category_name (PDict ((title, item_data) :: rest))
           (set_trace (fun t => (t ++ [EvScrape category_name])%list) w)).
Proof.
  intros Hw. unfold _scrape.
  rewrite try_except_bind, scrape_category_run, Hw.
  cbn [truthy length Nat.eqb negb for_ call_set_item_data].
  set (w1 := set_trace _ w).
  assert (Hj : json_files (snd (set_category_data category_name
                 (PDict ((title, item_data) :: rest)) w1)) = json_files w).
  { unfold set_category_data, set, redis_client_setex, redis_client_set,
      file_dump. run.
    repeat match goal with
           | |- context [if ?c then _ else _] => destruct c; wsimpl
           end; reflexivity. }
  set (sc := set_category_data _ _) in *. clearbody sc.
  cbv [bind ret raise try_except].
  destruct (sc w1) as [[b|e] w2]; cbn [snd] in *; auto.
Qed.

(** C2. The characters are cached and saved on disk, and a refresh finds no
    member: the cache entry stays as it was, and the snapshot on disk is
    replaced by an empty mapping. *)
Theorem empty_refresh_overwrites_disk_snapshot :
  let w := world_characters in
  let w' := snd (_scrape "characters" w) in
  wiki w "characters" = Ok [] /\
  cache_files w !! category_cache_path "characters"
    = Some (characters_snapshot, 0) /\
  json_files w !! snapshot_path "characters"
    = Some (JsonDoc characters_snapshot) /\
  cache_files w' !! category_cache_path "characters"
    = Some (characters_snapshot, 0) /\
  json_files w' !! snapshot_path "characters" = Some (JsonDoc (PDict [])).
Proof. vm_compute. repeat split; reflexivity. Qed.

(** ** The category route *)

Lemma in_CATEGORIES_spec name :
  in_CATEGORIES name = true <-> In name (map fst CATEGORIES).
Proof.
  unfold in_CATEGORIES. rewrite existsb_exists. split.
  - intros ([k v] & Hin & Heq). apply String.eqb_eq in Heq. subst.
    apply in_map_iff. exists (k, v). auto.
  - intros Hin. apply in_map_iff in Hin. destruct Hin as ([k v] & Heq & Hin).
    exists (k, v). split; [assumption|]. apply String.eqb_eq. now subst.
Qed.

Lemma py_slice_page {A} (l : list A) (offset limit : Z) :
  0 <= offset -> 0 <= limit ->
  py_slice l offset (offset + limit) =
    firstn (Z.to_nat limit) (skipn (Z.to_nat offset) l).
Proof.
  intros Ho Hl. unfold py_slice, clamp_index.
  destruct (Z.ltb_spec offset 0); [lia|].
  destruct (Z.ltb_spec (offset + limit) 0); [lia|].
  set (n := Z.of_nat (length l)).
  destruct (Z.le_gt_cases n offset) as [Hge|Hlt].
  - rewrite (skipn_all2 (n:=Z.to_nat (Z.max 0 (Z.min n offset)))) by lia.
    rewrite (skipn_all2 (n:=Z.to_nat offset)) by lia.
    now rewrite !firstn_nil.
  - replace (Z.max 0 (Z.min n offset)) with offset by lia.
    destruct (Z.le_gt_cases n (offset + limit)) as [Hge'|Hlt'].
    + replace (Z.max 0 (Z.min n (offset + limit))) with n by lia.
      rewrite !firstn_all2; [reflexivity| |]; rewrite length_skipn; lia.
    + replace (Z.max 0 (Z.min n (offset + limit))) with (offset + limit)
        by lia.
      do 2 f_equal. lia.
Qed.

Lemma omap_all_valid {A B} (f : A -> option B) (l : list A) :
  Forall (fun v => is_Some (f v)) l ->
  Forall2 (fun v i => f v = Some i) l (omap f l).
Proof.
  induction 1 as [|v l [i Hi] _ IH]; cbn; [constructor|].
  rewrite Hi. cbn. constructor; assumption.
Qed.

Section CategoryRoute.
Context {wiki_item : Type} (WikiItem : pydict -> option wiki_item).

(** C8. A category that is not configured is answered 404 at once: the
    world is as before, so the trace has no cache read, no disk read and
    no run of the scraper, and no task has been queued. *)
Theorem unknown_category_is_not_found category_name limit offset refresh w :
  ~ In category_name (map fst CATEGORIES) ->
  get_category_items WikiItem category_name limit offset refresh w =
    (Raise (HTTPException 404), w).
Proof.
  intros Hn. unfold get_category_items.
  destruct (in_CATEGORIES category_name) eqn:E; [|reflexivity].
  apply in_CATEGORIES_spec in E. contradiction.
Qed.

(** C7. A request that resolves to a snapshot answers with the records of
    the mapping from [offset] on, in the order of the mapping and at most
    [limit] of them, and with the number of all its records as [total]; an
    offset at or past that number gives no item and the same total.  With
    25 valid records, [limit=10, offset=20] gives the last five. *)
Theorem pagination_of_resolved_snapshot category_name refresh w w' d :
  In category_name (map fst CATEGORIES) ->
  resolve_category_data (wiki_item:=wiki_item) category_name refresh w =
    (Ok (inr (PDict d)), w') ->
  let total := Z.of_nat (length d) in
  let page limit offset :=
    firstn (Z.to_nat limit) (skipn (Z.to_nat offset) (dict_values d)) in
  let valid := Forall (fun v => is_Some (format_item WikiItem v))
                 (dict_values d) in
  (forall limit offset, 0 <= offset -> 0 <= limit ->
     get_category_items WikiItem category_name limit offset refresh w =
       (Ok (CategoryResult category_name total
              (omap (format_item WikiItem) (page limit offset))), w')) /\
  (forall limit offset, total <= offset ->
     get_category_items WikiItem category_name limit offset refresh w =
       (Ok (CategoryResult category_name total []), w')) /\
  (valid -> forall limit offset, 0 <= offset -> 0 <= limit ->
     exists items,
       get_category_items WikiItem category_name limit offset refresh w =
         (Ok (CategoryResult category_name total items), w') /\
       Forall2 (fun v i => format_item WikiItem v = Some i)
               (page limit offset) items /\
       Z.of_nat (length items) = Z.min limit (Z.max 0 (total - offset))) /\
  (valid -> length d = 25%nat ->
     exists items,
       get_category_items WikiItem category_name 10 20 refresh w =
         (Ok (CategoryResult category_name 25 items), w') /\
       Forall2 (fun v i => format_item WikiItem v = Some i)
               (skipn 20 (dict_values d)) items /\
       length items = 5%nat).
Proof.
  intros Hin Hres total page valid.
  apply in_CATEGORIES_spec in Hin.
  assert (Hl : Z.of_nat (length (dict_values d)) = total)
    by (unfold dict_values; now rewrite length_map).
  assert (Hpast : forall limit offset, total <= offset ->
            get_category_items WikiItem category_name limit offset refresh w =
              (Ok (CategoryResult category_name total []), w')).
  { intros limit offset Ho.
    unfold get_category_items. rewrite Hin. cbn [negb].
    unfold bind. rewrite Hres. unfold paginate, ret. rewrite Hl.
    destruct (Z.geb_spec offset total); [reflexivity|lia]. }
  assert (Hpage : forall limit offset, 0 <= offset -> 0 <= limit ->
            get_category_items WikiItem category_name limit offset refresh w =
              (Ok (CategoryResult category_name total
                     (omap (format_item WikiItem) (page limit offset))), w')).
  { intros limit offset Ho Hlim.
    destruct (Z.le_gt_cases total offset) as [Hge|Hlt].
    - rewrite Hpast by exact Hge. subst page. cbv beta.
      rewrite skipn_all2 by lia. now rewrite firstn_nil.
    - unfold get_category_items. rewrite Hin. cbn [negb].
      unfold bind. rewrite Hres. unfold paginate, ret. rewrite Hl.
      destruct (Z.geb_spec offset total); [lia|].
      now rewrite py_slice_page. }
  assert (Hvalid : valid -> forall limit offset, 0 <= offset -> 0 <= limit ->
            Forall2 (fun v i => format_item WikiItem v = Some i)
              (page limit offset)
              (omap (format_item WikiItem) (page limit offset))).
  { intros Hval limit offset _ _. apply omap_all_valid.
    subst page. cbv beta. apply Forall_take, Forall_drop. exact Hval. }
  split; [exact Hpage|]. split; [exact Hpast|]. split.
  - intros Hval limit offset Ho Hlim.
    exists (omap (format_item WikiItem) (page limit offset)).
    split; [now apply Hpage|]. split; [now apply Hvalid|].
    rewrite <- (Forall2_length _ _ _ (Hvalid Hval limit offset Ho Hlim)).
    subst page. cbv beta. rewrite length_firstn, length_skipn. lia.
  - intros Hval Hlen.
    exists (omap (format_item WikiItem) (page 10 20)).
    assert (Hp : page 10 20 = skipn 20 (dict_values d)).
    { subst page. cbv beta. apply firstn_all2.
      rewrite length_skipn. change (Z.to_nat 20) with 20%nat.
      change (Z.to_nat 10) with 10%nat. lia. }
    assert (Ht : total = 25) by (subst total; lia).
    rewrite <- Ht. split; [apply Hpage; lia|].
    pose proof (Hvalid Hval 10 20 ltac:(lia) ltac:(lia)) as Hf.
    rewrite <- Hp. split; [exact Hf|].
    rewrite <- (Forall2_length _ _ _ Hf), Hp, length_skipn. lia.
Qed.
End CategoryRoute.

Lemma unknown_category_is_not_found_witness :
  ~ In "cyberware" (map fst CATEGORIES) /\
  get_category_items (wiki_item:=pydict) Some "cyberware" 10 0 false
    world_characters = (Raise (HTTPException 404), world_characters).
Proof.
  assert (H : ~ In "cyberware" (map fst CATEGORIES))
    by (cbn; intuition discriminate).
  split; [exact H|].
  exact (unknown_category_is_not_found Some "cyberware" 10 0 false
           world_characters H).
Defined.

Lemma pagination_of_resolved_snapshot_witness :
  let w' := snd (resolve_category_data (wiki_item:=pydict) "vehicles" false
                   world_vehicles) in
  let values := dict_values (pages 25 "x") in
  In "vehicles" (map fst CATEGORIES) /\
  resolve_category_data (wiki_item:=pydict) "vehicles" false world_vehicles =
    (Ok (inr (PDict (pages 25 "x"))), w') /\
  get_category_items Some "vehicles" 10 5 false world_vehicles =
    (Ok (CategoryResult "vehicles" 25
           (omap (format_item Some) (firstn 10 (skipn 5 values)))), w') /\
  get_category_items Some "vehicles" 10 20 false world_vehicles =
    (Ok (CategoryResult "vehicles" 25
           (omap (format_item Some) (firstn 10 (skipn 20 values)))), w') /\
  get_category_items Some "vehicles" 10 30 false world_vehicles =
    (Ok (CategoryResult "vehicles" 25 []), w').
Proof.
  cbv zeta.
  assert (H1 : In "vehicles" (map fst CATEGORIES)) by (cbn; auto).
  assert (H2 : resolve_category_data (wiki_item:=pydict) "vehicles" false
                 world_vehicles =
               (Ok (inr (PDict (pages 25 "x"))),
                snd (resolve_category_data (wiki_item:=pydict) "vehicles" false
                       world_vehicles)))
    by (vm_compute; reflexivity).
  do 2 (split; [assumption|]).
  destruct (pagination_of_resolved_snapshot Some "vehicles" false
              world_vehicles _ (pages 25 "x") H1 H2) as (Hpage & Hpast & _).
  split; [apply (Hpage 10 5); lia|].
  split; [apply (Hpage 10 20); lia|].
  apply (Hpast 10 30). cbn. lia.
Defined.

(** The pages of the 25 vehicles x, xx, xxx, ...: [limit=10] cuts the page
    at [offset=5] to ten records, from the sixth on, and the page at
    [offset=20] has the last five. *)
Example pages_of_25_vehicles :
  let titles r :=
    match fst r with
    | Ok (CategoryResult _ total items) =>
        Some (total, map (fun i => String.length
                                     (match dict_get "title" i with
                                      | Some (PStr t) => t
                                      | _ => ""
                                      end)) items)
    | _ => None
    end in
  titles (get_category_items (wiki_item:=pydict) Some "vehicles" 10 5 false
            world_vehicles)
    = Some (25, [6; 7; 8; 9; 10; 11; 12; 13; 14; 15]%nat) /\
  titles (get_category_items (wiki_item:=pydict) Some "vehicles" 10 20 false
            world_vehicles)
    = Some (25, [21; 22; 23; 24; 25]%nat) /\
  titles (get_category_items (wiki_item:=pydict) Some "vehicles" 10 30 false
            world_vehicles)
    = Some (25, []).
Proof. vm_compute. repeat split; reflexivity. Qed.

(** ** Empty cached values *)

Ltac wsimpl' := cbv [set_redis_up] in *; wsimpl.

Ltac split_cases :=
  repeat match goal with
         | |- context [if disk_ok ?w then _ else _] =>
             destruct (disk_ok w) eqn:?; wsimpl'
         | |- context [if redis_up ?w then _ else _] =>
             destruct (redis_up w) eqn:?; wsimpl'
         | |- context [if use_redis ?w then _ else _] =>
             destruct (use_redis w) eqn:?; wsimpl'
         | |- context [if bool_decide ?P then _ else _] =>
             destruct (bool_decide P) eqn:?; wsimpl'
         | |- context [if (?a >? ?b) then _ else _] =>
             destruct (a >? b) eqn:?; wsimpl'
         | |- context [if (?a <? ?b) then _ else _] =>
             destruct (a <? b) eqn:?; wsimpl'
         | |- context [match ?m !! ?k with _ => _ end] =>
             destruct (m !! k) eqn:?; wsimpl'
         | |- context [match ?p with (_, _) => _ end] =>
             is_var p; destruct p; wsimpl'
         | |- context [match ?o with Some _ => _ | None => _ end] =>
             is_var o; destruct o; wsimpl'
         end.

Ltac cache_unfold :=
  unfold get, set, delete_, flush, ping, redis_client_get, redis_client_setex,
    redis_client_set, redis_client_delete, redis_client_flushdb,
    redis_client_ping, file_exists, file_mtime, file_load, file_dump,
    file_unlink, timedelta;
  run.

(** What a read does to the world. *)
Lemma get_effects key w :
  let w' := snd (get key w) in
  redis_db w' = redis_db w /\
  json_files w' = json_files w /\
  background w' = background w /\
  use_redis w' = use_redis w /\
  trace w' = (trace w ++ [EvCacheGet key])%list /\
  (cache_files w' = cache_files w \/
   cache_files w' = delete (_get_file_path key) (cache_files w) /\
   fst (get key w) = Ok PNone).
Proof. cbv zeta. cache_unfold. split_cases; repeat split; auto. Qed.

Lemma same_surroundings_refl w : same_surroundings w w.
Proof. repeat split. Qed.

Lemma same_surroundings_trans a b c :
  same_surroundings a b -> same_surroundings b c -> same_surroundings a c.
Proof. intros (? & ? & ?) (? & ? & ?). repeat split; congruence. Qed.

Lemma get_keeps_surroundings key : keeps same_surroundings (get key).
Proof.
  apply keeps_get;
    first [ apply same_surroundings_refl
          | apply same_surroundings_trans
          | intros; repeat split ].
Qed.

(** An entry that is in neither tier reads as [None]. *)
Lemma get_absent key w :
  redis_db w !! key = None -> cache_files w !! _get_file_path key = None ->
  fst (get key w) = Ok PNone.
Proof.
  intros Hr Hf. unfold get, redis_client_get, file_exists. run.
  destruct (use_redis w), (redis_up w), (disk_ok w); wsimpl;
    rewrite ?Hr, ?Hf; wsimpl; rewrite ?Hf; reflexivity.
Qed.

(** What a getter with the default [dflt] answers when [get] finds nothing
    or an empty container. *)
Lemma getter_of_nothing key dflt v w :
  fst (get key w) = Ok v -> v = PNone \/ empty_container v ->
  (v <- get key ;; ret (py_or v dflt)) w = (Ok dflt, snd (get key w)).
Proof.
  intros Hg Hv. unfold bind, ret. destruct (get key w) as [r w1].
  cbn in Hg. subst r. cbn [snd].
  destruct Hv as [->|[->|[->| ->]]]; reflexivity.
Qed.

(** The four getters answer an empty container both when [get] finds
    nothing and when it finds an empty container. *)
Lemma getters_of_nothing w :
  (forall category v,
     fst (get ("category:" ++ category) w) = Ok v ->
     v = PNone \/ empty_container v ->
     fst (get_category_data category w) = Ok (PList [])) /\
  (forall category item_id v,
     fst (get ("item:" ++ category ++ ":" ++ item_id) w) = Ok v ->
     v = PNone \/ empty_container v ->
     fst (get_item_data category item_id w) = Ok (PDict [])) /\
  (forall v,
     fst (get "all_categories" w) = Ok v ->
     v = PNone \/ empty_container v ->
     fst (get_all_categories w) = Ok (PDict [])) /\
  (forall query v,
     fst (get ("search:" ++ query) w) = Ok v ->
     v = PNone \/ empty_container v ->
     fst (get_search_results query w) = Ok (PList [])).
Proof.
  repeat split; intros;
    unfold get_category_data, get_item_data, get_all_categories,
      get_search_results;
    erewrite getter_of_nothing by eassumption; reflexivity.
Qed.

Section EmptySnapshot.
Context {wiki_item : Type} (WikiItem : pydict -> option wiki_item).

(** C10. The four getters do not tell an empty cached value from an
    absent one: they answer their empty container in both cases.  A
    category whose cached snapshot has no item is therefore a miss: the
    handler queues a refresh task and looks for the snapshot on disk; it
    answers with the page of that snapshot when there is one, and 202
    when the disk gives none -- never the empty cached snapshot. *)
Theorem empty_cached_snapshot_is_a_miss category_name limit offset w v :
  In category_name (map fst CATEGORIES) ->
  fst (get ("category:" ++ category_name) w) = Ok v ->
  v = PNone \/ empty_container v ->
  let nothing (key : string) :=
    exists v0, fst (get key w) = Ok v0 /\ (v0 = PNone \/ empty_container v0) in
  let r := fst (get_category_items WikiItem category_name limit offset false w) in
  let w' := snd (get_category_items WikiItem category_name limit offset false w) in
  (forall category, nothing ("category:" ++ category) ->
     fst (get_category_data category w) = Ok (PList [])) /\
  (forall category item_id, nothing ("item:" ++ category ++ ":" ++ item_id) ->
     fst (get_item_data category item_id w) = Ok (PDict [])) /\
  (nothing "all_categories" -> fst (get_all_categories w) = Ok (PDict [])) /\
  (forall query, nothing ("search:" ++ query) ->
     fst (get_search_results query w) = Ok (PList [])) /\
  fst (get_category_data category_name w) = Ok (PList []) /\
  background w' = (background w ++ [category_name])%list /\
  trace w' = (trace w ++ [EvCacheGet ("category:" ++ category_name);
                          EvDiskRead (snapshot_path category_name)])%list /\
  r = match durable_snapshot category_name w with
      | Some doc => fst (paginate WikiItem category_name doc limit offset w')
      | None => Ok (JSONResponse 202)
      end /\
  (forall d, durable_snapshot category_name w = Some (PDict d) ->
     d <> [] /\
     r = Ok (CategoryResult category_name (Z.of_nat (length d))
               (page_items WikiItem category_name d limit offset w'))) /\
  r <> Ok (CategoryResult category_name 0 []).
Proof.
  intros Hin Hget Hv nothing r w'. subst nothing r w'. cbv beta.
  apply in_CATEGORIES_spec in Hin.
  destruct (getters_of_nothing w) as (Hcat & Hitem & Hall & Hsearch).
  split; [intros c (v0 & H1 & H2); eauto|].
  split; [intros c i (v0 & H1 & H2); eauto|].
  split; [intros (v0 & H1 & H2); eauto|].
  split; [intros q (v0 & H1 & H2); eauto|].
  split; [exact (Hcat category_name v Hget Hv)|].
  destruct (get_keeps_surroundings ("category:" ++ category_name) w)
    as (Hb & Hj & Hd).
  destruct (get_effects ("category:" ++ category_name) w)
    as (_ & _ & _ & _ & Htr & _).
  assert (E : get_category_data category_name w =
              (Ok (PList []), snd (get ("category:" ++ category_name) w)))
    by (apply (getter_of_nothing _ (PList []) v w Hget Hv)).
  set (w1 := snd (get ("category:" ++ category_name) w)) in *.
  clearbody w1.
  assert (Hp : forall doc w0,
             snd (paginate WikiItem category_name doc limit offset w0) = w0).
  { intros doc w0. unfold paginate, ret, raise.
    destruct doc; try reflexivity. now destruct (_ >=? _). }
  assert (Hpd : forall d w0 w2, d <> [] ->
             fst (paginate WikiItem category_name (PDict d) limit offset w0) =
               Ok (CategoryResult category_name (Z.of_nat (length d))
                     (page_items WikiItem category_name d limit offset w2)) /\
             fst (paginate WikiItem category_name (PDict d) limit offset w0) <>
               Ok (CategoryResult category_name 0 [])).
  { intros d w0 w2 Hne. unfold page_items, paginate, ret.
    unfold dict_values. rewrite length_map.
    assert (Z.of_nat (length d) <> 0) by (destruct d; [contradiction|cbn; lia]).
    destruct (_ >=? _); cbn [fst]; (split; [reflexivity|congruence]). }
  unfold durable_snapshot.
  unfold get_category_items. rewrite Hin. cbn [negb].
  rewrite bind_run. unfold resolve_category_data. cbn [negb].
  rewrite bind_run, E.
  cbn [truthy length Nat.eqb negb orb].
  unfold scrape_category_async, json_exists, json_load.
  fold (snapshot_path category_name).
  run. rewrite Hb, Hd, Htr.
  assert (Htrace : forall l : list event,
             ((l ++ [EvCacheGet ("category:" ++ category_name)]) ++
              [EvDiskRead (snapshot_path category_name)])%list =
             (l ++ [EvCacheGet ("category:" ++ category_name);
                    EvDiskRead (snapshot_path category_name)])%list)
    by (intros l; now rewrite <- app_assoc).
  rewrite Htrace.
  destruct (disk_ok w); wsimpl.
  2: { repeat split; intros; try discriminate; auto. }
  rewrite Hj.
  destruct (json_files w !! snapshot_path category_name)
    as [[doc|]|] eqn:Hfile; cbn [bool_decide decide_rel]; wsimpl.
  - rewrite bool_decide_eq_true_2 by eauto. wsimpl. rewrite Hfile.
    destruct (truthy doc) eqn:Hdoc; cbn [negb]; wsimpl.
    + pose proof (Hp doc) as Hp'.
      match goal with
      | |- context [paginate WikiItem category_name doc limit offset ?w0] =>
          set (w2 := w0);
          destruct (paginate WikiItem category_name doc limit offset w2)
            as [rp wp] eqn:Ep
      end.
      pose proof (Hp' w2) as Hw2. rewrite Ep in Hw2. cbn [snd] in Hw2.
      subst wp. cbn [fst snd]. subst w2. wsimpl.
      split; [reflexivity|]. split; [reflexivity|].
      match type of Ep with
      | paginate _ _ _ _ _ ?w0 = _ => set (w2 := w0) in *
      end.
      pose proof (Hp' w2) as Hw2'.
      assert (Efst : rp = fst (paginate WikiItem category_name doc limit
                                 offset w2)) by now rewrite Ep.
      split; [exact Efst|]. split.
      * intros d Hd'. injection Hd' as ->.
        assert (Hne : d <> []) by (destruct d; [discriminate|discriminate]).
        split; [exact Hne|]. rewrite Efst. apply Hpd, Hne.
      * rewrite Efst. destruct doc as [| | | |l|d];
          try (unfold paginate, raise; cbn [fst]; discriminate).
        apply (Hpd d w2 w2). destruct d; [discriminate|discriminate].
    + repeat split; intros; try discriminate; auto.
  - rewrite bool_decide_eq_true_2 by eauto. wsimpl. rewrite Hfile.
    repeat split; intros; try discriminate; auto.
  - rewrite bool_decide_eq_false_2 by (intros [? ?]; discriminate).
    repeat split; intros; try discriminate; auto.
Qed.
End EmptySnapshot.

Lemma empty_cached_snapshot_is_a_miss_witness :
  let w := world_weapons in
  let r := fst (get_category_items (wiki_item:=pydict) Some "weapons" 10 0 false
                  w) in
  let w' := snd (get_category_items (wiki_item:=pydict) Some "weapons" 10 0
                   false w) in
  In "weapons" (map fst CATEGORIES) /\
  fst (get ("category:" ++ "weapons") w) = Ok (PDict []) /\
  (PDict [] = PNone \/ empty_container (PDict [])) /\
  fst (get_category_data "weapons" w) = Ok (PList []) /\
  background w' = (background w ++ ["weapons"])%list /\
  durable_snapshot "weapons" w = Some (PDict (pages 3 "x")) /\
  r = Ok (CategoryResult "weapons" 3
            (page_items Some "weapons" (pages 3 "x") 10 0 w')) /\
  r <> Ok (CategoryResult "weapons" 0 []).
Proof.
  cbv zeta.
  assert (H1 : In "weapons" (map fst CATEGORIES)) by (cbn; auto).
  assert (H2 : fst (get ("category:" ++ "weapons") world_weapons)
               = Ok (PDict [])) by (vm_compute; reflexivity).
  assert (H3 : PDict [] = PNone \/ empty_container (PDict []))
    by (right; left; reflexivity).
  assert (H4 : durable_snapshot "weapons" world_weapons
               = Some (PDict (pages 3 "x"))) by (vm_compute; reflexivity).
  do 3 (split; [assumption|]).
  destruct (empty_cached_snapshot_is_a_miss Some "weapons" 10 0 world_weapons
              (PDict []) H1 H2 H3)
    as (_ & _ & _ & _ & Hg & Hb & _ & _ & Hd & Hne).
  split; [exact Hg|]. split; [exact Hb|]. split; [exact H4|].
  split; [exact (proj2 (Hd _ H4))|exact Hne].
Defined.

(** The three weapons on disk are served in place of the empty cached
    snapshot; without them the answer is 202. *)
Example empty_cached_weapons :
  let titles r :=
    match fst r with
    | Ok (CategoryResult _ total items) =>
        Some (total, map (dict_get "title") items)
    | _ => None
    end in
  titles (get_category_items (wiki_item:=pydict) Some "weapons" 10 0 false
            world_weapons)
    = Some (3, [Some (PStr "x"); Some (PStr "xx"); Some (PStr "xxx")]) /\
  fst (get_category_items (wiki_item:=pydict) Some "weapons" 10 0 false
         (set_json_files (fun _ => ∅) world_weapons))
    = Ok (JSONResponse 202).
Proof. vm_compute. split; reflexivity. Qed.

(** ** The item route *)

Section ItemRoute.
Context {wiki_item : Type} (WikiItem : pydict -> option wiki_item).

(** The first statement of the handler is a call of
    [get_item_data(self, category, item_id)] with the title alone: it
    raises [TypeError], which the handler turns into a 500. *)
Lemma get_item_details_always_500 item_title w :
  get_item_details WikiItem item_title w = (Raise (HTTPException 500), w).
Proof. reflexivity. Qed.
End ItemRoute.

(** The promotion of the scan, [set_item_data(item_title, item_data)], lacks
    an argument as well: were the scan reached, it would find the title in
    the first category that has it and raise there. *)
Lemma scan_categories_raises_at_promotion cat_key cat_name rest title d w :
  fst (get_category_data cat_key w) = Ok (PDict d) ->
  d <> [] -> dict_mem title d = true ->
  fst (scan_categories ((cat_key, cat_name) :: rest) title (PDict []) w)
    = Raise TypeError.
Proof.
  intros Hg Hd Hm. cbn [scan_categories]. rewrite bind_run.
  destruct (get_category_data cat_key w) as [r w1]. cbn in Hg. subst r.
  destruct d as [|kv d]; [contradiction|].
  cbn [truthy length Nat.eqb negb py_in]. rewrite bind_run.
  unfold ret at 1. rewrite Hm. unfold py_getitem.
  unfold dict_mem in Hm. destruct (dict_get title (kv :: d)); [|discriminate].
  reflexivity.
Qed.

(** C9. Judy Alvarez is in the cached snapshot of the characters and under
    no item key: the handler answers 500 and writes nothing. *)
Theorem item_lookup_fails_before_the_scan :
  let w := world_characters in
  fst (get_category_data "characters" w) = Ok characters_snapshot /\
  py_in "Judy Alvarez" characters_snapshot w = (Ok true, w) /\
  get_item_details (wiki_item:=pydict) Some "Judy Alvarez" w =
    (Raise (HTTPException 500), w) /\
  fst (scan_categories CATEGORIES "Judy Alvarez" (PDict []) w) = Raise TypeError.
Proof.
  cbv zeta. split; [vm_compute; reflexivity|]. split; [reflexivity|].
  split; [apply get_item_details_always_500|].
  vm_compute. reflexivity.
Qed.

(** ** The search route *)

Lemma try_except_raise_cases {A} (m : M A) (e : exn) w :
  (exists a, fst (try_except m (fun _ => raise e) w) = Ok a) \/
  fst (try_except m (fun _ => raise e) w) = Raise e.
Proof.
  unfold try_except, raise. destruct (m w) as [[a|e'] w1]; cbn; eauto.
Qed.

Section SearchRoute.
Context {wiki_item : Type} (WikiItem : pydict -> option wiki_item).

(** C5, as the code has it.  The handler answers 400 exactly to the
    queries whose trimmed length is below 2, the bound written in the
    handler; [SEARCH_MIN_QUERY_LENGTH] is not consulted. *)
Theorem search_rejects_below_two q categories limit offset w :
  fst (search_items WikiItem q categories limit offset w)
    = Raise (HTTPException 400)
  <-> len (strip q) < 2.
Proof.
  unfold search_items.
  destruct (len q =? 0) eqn:E0; cbn [orb].
  - apply Z.eqb_eq in E0. destruct q; [|unfold len in E0; cbn in E0; lia].
    cbn. split; [intros _; lia|reflexivity].
  - destruct (Z.ltb_spec (len (strip q)) 2) as [Hlt|Hge].
    + split; [intros _; exact Hlt|reflexivity].
    + split; [|lia]. intros H.
      match type of H with
      | fst (try_except ?m _ _) = _ =>
          destruct (try_except_raise_cases m (HTTPException 500) w)
            as [[a Ha]|Ha]
      end; rewrite Ha in H; discriminate.
Qed.
End SearchRoute.

(** C5, as stated, fails: ["ab"] is shorter than the configured minimum
    of 3 and is not answered 400.  It passes the length test of the handler,
    as ["abc"] does, and the cache is searched for it; ["a"] is answered 400
    before anything is read.  (With nothing cached for the query, the
    search of ["ab"] and ["abc"] then ends at the lookup of
    [settings.MAX_SEARCH_RESULTS], and the handler answers 500.) *)
Lemma search_ab_passes_the_length_test :
  let search q := search_items (wiki_item:=pydict) Some q None 10 0
                    world_characters in
  SEARCH_MIN_QUERY_LENGTH = 3 /\
  len (strip "ab") < SEARCH_MIN_QUERY_LENGTH /\
  fst (search "ab") <> Raise (HTTPException 400) /\
  fst (search "ab") = Raise (HTTPException 500) /\
  trace (snd (search "ab")) =
    EvCacheGet "search:ab" ::
    map (fun kv => EvCacheGet ("category:" ++ fst kv)) CATEGORIES /\
  search "a" = (Raise (HTTPException 400), world_characters) /\
  fst (search "abc") <> Raise (HTTPException 400).
Proof. vm_compute. repeat split; (reflexivity || discriminate). Qed.

(** ** The search key *)

Lemma lower_app s t : lower (s ++ t) = lower s ++ lower t.
Proof. induction s as [|c s IH]; simpl; [reflexivity|]. now rewrite IH. Qed.

Lemma isspace_not_upper c : isspace c = true -> isupper c = false.
Proof.
  unfold isspace, isupper. intros H.
  destruct (N.leb_spec 65 (code c)); [|reflexivity].
  destruct (N.leb_spec (code c) 13); [lia|].
  destruct (N.leb_spec (code c) 32); [lia|].
  rewrite !andb_false_r in H. discriminate.
Qed.

Lemma lower_blank s : blank s -> lower s = s.
Proof.
  induction 1 as [|c s Hc _ IH]; cbn; [reflexivity|].
  unfold lower_char. rewrite (isspace_not_upper c Hc). now rewrite IH.
Qed.

Lemma same_letter_lower a b : same_letter a b -> lower_char a = lower_char b.
Proof.
  assert (up : forall x y, isupper x = true -> code y = (code x + 32)%N ->
                           lower_char x = lower_char y).
  { intros x y Hx Hy. unfold lower_char. rewrite Hx.
    assert (Hny : isupper y = false).
    { unfold isupper in *. rewrite Hy.
      apply andb_true_iff in Hx. destruct Hx as [H1 H2].
      apply N.leb_le in H1. apply andb_false_iff. right.
      apply N.leb_gt. lia. }
    rewrite Hny, <- Hy. apply ascii_N_embedding. }
  intros [->|[[H1 H2]|[H1 H2]]]; [reflexivity|now apply up|].
  symmetry. now apply up.
Qed.

Lemma same_letters_lower s t : same_letters s t -> lower s = lower t.
Proof.
  induction 1 as [|a b s t Hab _ IH]; cbn; [reflexivity|].
  now rewrite (same_letter_lower a b Hab), IH.
Qed.

Lemma lstrip_blank s : blank s -> lstrip s = EmptyString.
Proof. induction 1 as [|c s Hc _ IH]; cbn; [reflexivity|]. now rewrite Hc. Qed.

Lemma rstrip_blank s : blank s -> rstrip s = EmptyString.
Proof.
  induction 1 as [|c s Hc _ IH]; cbn; [reflexivity|]. now rewrite IH, Hc.
Qed.

Lemma lstrip_app_blank l s : blank l -> lstrip (l ++ s) = lstrip s.
Proof.
  induction 1 as [|c l Hc _ IH]; simpl; [reflexivity|]. now rewrite Hc.
Qed.

Lemma rstrip_app_blank s r : blank r -> rstrip (s ++ r) = rstrip s.
Proof.
  intros Hr. induction s as [|c s IH]; simpl.
  - now apply rstrip_blank.
  - now rewrite IH.
Qed.

Lemma strip_app_blank_r s r : blank r -> strip (s ++ r) = strip s.
Proof.
  intros Hr. unfold strip. induction s as [|c s IH].
  - change ("" ++ r) with r. now rewrite (lstrip_blank r Hr).
  - change (String c s ++ r) with (String c (s ++ r)). cbn [lstrip].
    destruct (isspace c); [exact IH|].
    change (String c (s ++ r)) with (String c s ++ r).
    now apply rstrip_app_blank.
Qed.

Lemma strip_between l s r : blank l -> blank r -> strip (l ++ s ++ r) = strip s.
Proof.
  intros Hl Hr. unfold strip. rewrite lstrip_app_blank by assumption.
  now apply strip_app_blank_r.
Qed.

(** Text in another case, between other blanks, strips and lowers to the
    same string. *)
Lemma normalize_query_invariant q1 q2 :
  differ_in_case_and_outer_space q1 q2 ->
  normalize_query q1 = normalize_query q2.
Proof.
  intros (l1 & c1 & r1 & l2 & c2 & r2 & -> & -> & Hl1 & Hr1 & Hl2 & Hr2 & Hc).
  unfold normalize_query. rewrite !lower_app.
  rewrite (lower_blank l1 Hl1), (lower_blank r1 Hr1),
          (lower_blank l2 Hl2), (lower_blank r2 Hr2).
  rewrite (same_letters_lower c1 c2 Hc).
  now rewrite !strip_between.
Qed.

(** C6, as the code has it.  Two queries that differ only in letter case
    and in the whitespace around the text have the same cache key, and
    [search_in_cache] does the same for both. *)
Theorem search_key_ignores_case_and_outer_space q1 q2 categories w :
  differ_in_case_and_outer_space q1 q2 ->
  "search:" ++ normalize_query q1 = "search:" ++ normalize_query q2 /\
  search_in_cache q1 categories w = search_in_cache q2 categories w.
Proof.
  intros H. apply normalize_query_invariant in H.
  unfold search_in_cache. rewrite H. split; reflexivity.
Qed.

Lemma search_key_ignores_case_and_outer_space_witness :
  differ_in_case_and_outer_space " Ripperdoc " "ripperdoc" /\
  "search:" ++ normalize_query " Ripperdoc "
    = "search:" ++ normalize_query "ripperdoc" /\
  search_in_cache " Ripperdoc " None world_characters =
    search_in_cache "ripperdoc" None world_characters.
Proof.
  assert (H : differ_in_case_and_outer_space " Ripperdoc " "ripperdoc").
  { exists " ", "Ripperdoc", " ", "", "ripperdoc", "".
    split; [reflexivity|]. split; [reflexivity|].
    split; [repeat constructor|]. split; [repeat constructor|].
    split; [constructor|]. split; [constructor|].
    repeat (constructor;
            [first [left; reflexivity | right; left; split; reflexivity]|]).
    constructor. }
  split; [exact H|].
  exact (search_key_ignores_case_and_outer_space
           " Ripperdoc " "ripperdoc" None world_characters H).
Defined.

(** C6, as stated, fails: the specification's normalization identifies two
    queries that differ in inner whitespace, and the code keeps them under
    two keys and two cache files. *)
Lemma inner_whitespace_is_not_collapsed :
  spec_normalize "night  city" = spec_normalize "Night City " /\
  normalize_query "night  city" = "night  city" /\
  normalize_query "Night City " = "night city" /\
  "search:" ++ normalize_query "night  city"
    <> "search:" ++ normalize_query "Night City " /\
  _get_file_path ("search:" ++ normalize_query "night  city")
    <> _get_file_path ("search:" ++ normalize_query "Night City ").
Proof. vm_compute. repeat split; try reflexivity; discriminate. Qed.

(** * Further properties of the cache *)

(** What [set] has written is what [get] reads next, for every key, value
    and [ttl], as soon as one tier took the write (Redis in use and
    answering, or a working disk) and [self.ttl] is a number of seconds
    [timedelta] accepts. *)
Theorem set_then_get_round_trip key value ttl_arg w :
  use_redis w && redis_up w || disk_ok w = true ->
  timedelta_ok (ttl w) ->
  fst (set key value ttl_arg w) = Ok true /\
  fst (get key (snd (set key value ttl_arg w))) = Ok value.
Proof.
  intros H Hok. split; [|now apply get_after_set].
  now rewrite set_result, H.
Qed.

Lemma set_then_get_round_trip_witness :
  use_redis world0 && redis_up world0 || disk_ok world0 = true /\
  timedelta_ok (ttl world0) /\
  fst (set "category:characters" characters_snapshot None world0) = Ok true /\
  fst (get "category:characters"
         (snd (set "category:characters" characters_snapshot None world0)))
    = Ok characters_snapshot.
Proof.
  assert (Hok : timedelta_ok (ttl world0)) by (vm_compute; discriminate).
  split; [reflexivity|]. split; [exact Hok|].
  exact (set_then_get_round_trip "category:characters" characters_snapshot None
           world0 eq_refl Hok).
Defined.

(** Beyond that, nothing is read back from the file tier: with
    [self.ttl] of a thousand million days, [timedelta] raises, [get]
    catches it and reports the entry absent, and the file stays. *)
Example get_with_ttl_out_of_range :
  let w := World 0 false (86400 * 1000000000) false ∅ true ∅ ∅
             (fun _ => Ok []) (fun _ => Raise ScraperError) [] [] in
  let w1 := snd (set "k" (PStr "v") None w) in
  fst (get "k" w1) = Ok PNone /\
  cache_files (snd (get "k" w1)) !! _get_file_path "k" = Some (PStr "v", 0).
Proof. vm_compute. split; reflexivity. Qed.

Lemma get_evicts_after_cache_ttl_witness :
  use_redis world0 = false /\ disk_ok world0 = true /\
  0 < ttl world0 /\ timedelta_ok (ttl world0) /\
  seconds (ttl world0) < seconds 3601 /\
  let w' := elapse (seconds 3601)
              (snd (set "search:judy" (PList []) (Some 300) world0)) in
  fst (get "search:judy" w') = Ok PNone /\
  cache_files (snd (get "search:judy" w')) !! _get_file_path "search:judy"
    = None.
Proof.
  assert (H3 : 0 < ttl world0) by reflexivity.
  assert (Hok : timedelta_ok (ttl world0)) by (vm_compute; discriminate).
  assert (H4 : seconds (ttl world0) < seconds 3601) by reflexivity.
  do 2 (split; [reflexivity|]). do 3 (split; [assumption|]).
  exact (get_evicts_after_cache_ttl "search:judy" (PList []) 300 (seconds 3601)
           world0 eq_refl eq_refl H3 Hok H4).
Defined.

(** With [self.ttl] at zero or below, the file tier never expires an
    entry: it is served however long after it was written. *)
Theorem file_entry_never_expires_without_ttl key value ttl_arg dt w :
  use_redis w = false -> disk_ok w = true -> ttl w <= 0 -> 0 <= dt ->
  let w' := elapse dt (snd (set key value ttl_arg w)) in
  fst (get key w') = Ok value /\
  cache_files (snd (get key w')) !! _get_file_path key = Some (value, now w).
Proof.
  intros Hu Hd Ht Hdt. rewrite set_file_only by assumption.
  cache_unfold. rewrite Hu. wsimpl. rewrite Hd. wsimpl.
  rewrite lookup_insert_eq, bool_decide_eq_true_2 by eauto. wsimpl.
  destruct (Z.gtb_spec (ttl w) 0); [lia|]. wsimpl. rewrite ?Hd. wsimpl.
  rewrite ?lookup_insert_eq. wsimpl. rewrite ?lookup_insert_eq. auto.
Qed.

Lemma file_entry_never_expires_without_ttl_witness :
  use_redis world_no_ttl = false /\ disk_ok world_no_ttl = true /\
  ttl world_no_ttl <= 0 /\ 0 <= seconds 1000000 /\
  let w' := elapse (seconds 1000000)
              (snd (set "k" (PStr "v") (Some 1) world_no_ttl)) in
  fst (get "k" w') = Ok (PStr "v") /\
  cache_files (snd (get "k" w')) !! _get_file_path "k" = Some (PStr "v", 0).
Proof.
  assert (H3 : ttl world_no_ttl <= 0)
    by (unfold world_no_ttl; cbn [ttl]; lia).
  assert (H4 : 0 <= seconds 1000000) by (unfold seconds; lia).
  do 2 (split; [reflexivity|]). do 2 (split; [assumption|]).
  exact (file_entry_never_expires_without_ttl "k" (PStr "v") (Some 1)
           (seconds 1000000) world_no_ttl eq_refl eq_refl H3 H4).
Defined.

(** [delete] on tiers that work removes the entry from each of them and
    answers [True], whether there was an entry or not; the next read finds
    nothing. *)
Theorem get_after_delete key w :
  use_redis w = false \/ redis_up w = true -> disk_ok w = true ->
  fst (delete_ key w) = Ok true /\
  fst (get key (snd (delete_ key w))) = Ok PNone /\
  cache_files (snd (delete_ key w)) !! _get_file_path key = None.
Proof.
  intros Hr Hd. cache_unfold.
  destruct (use_redis w) eqn:Hu; wsimpl.
  - destruct Hr as [Hr|Hr]; [discriminate|]. rewrite Hr. wsimpl. rewrite Hd.
    wsimpl.
    destruct (bool_decide (is_Some (cache_files w !! _get_file_path key)))
      eqn:Hex; wsimpl; rewrite ?Hd; wsimpl; rewrite ?Hu, ?Hr; wsimpl;
      rewrite ?lookup_delete_eq; wsimpl; rewrite ?Hd; wsimpl;
      rewrite ?lookup_delete_eq.
    + rewrite bool_decide_eq_false_2 by (intros [? ?]; discriminate).
      auto.
    + apply bool_decide_eq_false_1 in Hex.
      assert (Hn : cache_files w !! _get_file_path key = None)
        by (destruct (cache_files w !! _get_file_path key); [|reflexivity];
            exfalso; eauto).
      rewrite Hn. rewrite bool_decide_eq_false_2 by (intros [? ?]; discriminate).
      auto.
  - rewrite Hd. wsimpl.
    destruct (bool_decide (is_Some (cache_files w !! _get_file_path key)))
      eqn:Hex; wsimpl; rewrite ?Hd; wsimpl; rewrite ?Hu; wsimpl;
      rewrite ?Hd; wsimpl; rewrite ?lookup_delete_eq.
    + rewrite bool_decide_eq_false_2 by (intros [? ?]; discriminate).
      auto.
    + apply bool_decide_eq_false_1 in Hex.
      assert (Hn : cache_files w !! _get_file_path key = None)
        by (destruct (cache_files w !! _get_file_path key); [|reflexivity];
            exfalso; eauto).
      rewrite Hn. rewrite bool_decide_eq_false_2 by (intros [? ?]; discriminate).
      auto.
Qed.

Lemma get_after_delete_witness :
  (use_redis world_characters = false \/ redis_up world_characters = true) /\
  disk_ok world_characters = true /\
  fst (delete_ "category:characters" world_characters) = Ok true /\
  fst (get "category:characters"
         (snd (delete_ "category:characters" world_characters))) = Ok PNone /\
  cache_files (snd (delete_ "category:characters" world_characters))
    !! _get_file_path "category:characters" = None.
Proof.
  assert (H1 : use_redis world_characters = false \/
               redis_up world_characters = true) by (left; reflexivity).
  split; [exact H1|]. split; [reflexivity|].
  exact (get_after_delete "category:characters" world_characters H1 eq_refl).
Defined.

(** [delete] is best effort: with Redis in use and not answering it answers
    [True] for the file alone and the Redis entry stays; once the server
    answers again the deleted value is served. *)
Theorem delete_with_redis_down_leaves_entry key v w :
  use_redis w = true -> redis_up w = false -> disk_ok w = true ->
  redis_db w !! key = Some (v, None) ->
  fst (delete_ key w) = Ok true /\
  fst (get key (snd (delete_ key w))) = Ok PNone /\
  fst (get key (set_redis_up true (snd (delete_ key w)))) = Ok v.
Proof.
  intros Hu Hr Hd Hk. cache_unfold. rewrite Hu. wsimpl. rewrite Hr. wsimpl.
  rewrite Hd. wsimpl.
  destruct (bool_decide (is_Some (cache_files w !! _get_file_path key)))
    eqn:Hex; wsimpl; rewrite ?Hd; wsimpl'; rewrite ?Hu, ?Hr; wsimpl';
    rewrite ?Hk, ?Hd; wsimpl'; rewrite ?lookup_delete_eq.
  - rewrite bool_decide_eq_false_2 by (intros [? ?]; discriminate). auto.
  - apply bool_decide_eq_false_1 in Hex.
    assert (Hn : cache_files w !! _get_file_path key = None)
      by (destruct (cache_files w !! _get_file_path key); [|reflexivity];
          exfalso; eauto).
    rewrite Hn. rewrite bool_decide_eq_false_2 by (intros [? ?]; discriminate).
    auto.
Qed.

Lemma delete_with_redis_down_leaves_entry_witness :
  use_redis world_redis_stale = true /\ redis_up world_redis_stale = false /\
  disk_ok world_redis_stale = true /\
  redis_db world_redis_stale !! "k" = Some (PStr "old", None) /\
  fst (delete_ "k" world_redis_stale) = Ok true /\
  fst (get "k" (snd (delete_ "k" world_redis_stale))) = Ok PNone /\
  fst (get "k" (set_redis_up true (snd (delete_ "k" world_redis_stale))))
    = Ok (PStr "old").
Proof.
  assert (H4 : redis_db world_redis_stale !! "k" = Some (PStr "old", None))
    by (vm_compute; reflexivity).
  do 3 (split; [reflexivity|]). split; [exact H4|].
  exact (delete_with_redis_down_leaves_entry "k" (PStr "old") world_redis_stale
           eq_refl eq_refl eq_refl H4).
Defined.

(** A write made while Redis is in use and not answering goes to the file
    alone and is reported a success; the older Redis entry is not touched,
    and it is the one served once the server answers again.  Until then the
    file answers, [self.ttl] being a span [timedelta] accepts. *)
Theorem set_with_redis_down_leaves_old_value key old new ttl_arg w :
  use_redis w = true -> redis_up w = false -> disk_ok w = true ->
  timedelta_ok (ttl w) ->
  redis_db w !! key = Some (old, None) ->
  fst (set key new ttl_arg w) = Ok true /\
  fst (get key (snd (set key new ttl_arg w))) = Ok new /\
  fst (get key (set_redis_up true (snd (set key new ttl_arg w)))) = Ok old.
Proof.
  intros Hu Hr Hd Hok Hk. cache_unfold.
  destruct ttl_arg as [t|]; wsimpl; rewrite Hu; wsimpl.
  all: repeat first
         [ rewrite Hr | rewrite Hd | rewrite Hu | rewrite Hk
         | rewrite (timedelta_ok_gtb _ Hok)
         | rewrite lookup_insert_eq
         | rewrite bool_decide_eq_true_2 by eauto
         | match goal with
           | |- context [(?t >? 0)] => destruct (Z.gtb_spec t 0)
           | |- context [(?a - ?a >? ?b)] => destruct (Z.gtb_spec (a - a) b)
           end
         | progress wsimpl' ].
  all: try (repeat split; reflexivity).
  all: unfold seconds in *; lia.
Qed.

Lemma set_with_redis_down_leaves_old_value_witness :
  use_redis world_redis_stale = true /\ redis_up world_redis_stale = false /\
  disk_ok world_redis_stale = true /\
  timedelta_ok (ttl world_redis_stale) /\
  redis_db world_redis_stale !! "k" = Some (PStr "old", None) /\
  fst (set "k" (PStr "new") None world_redis_stale) = Ok true /\
  fst (get "k" (snd (set "k" (PStr "new") None world_redis_stale)))
    = Ok (PStr "new") /\
  fst (get "k" (set_redis_up true
                  (snd (set "k" (PStr "new") None world_redis_stale))))
    = Ok (PStr "old").
Proof.
  assert (Hok : timedelta_ok (ttl world_redis_stale))
    by (vm_compute; discriminate).
  assert (H4 : redis_db world_redis_stale !! "k" = Some (PStr "old", None))
    by (vm_compute; reflexivity).
  do 3 (split; [reflexivity|]). split; [exact Hok|]. split; [exact H4|].
  exact (set_with_redis_down_leaves_old_value "k" (PStr "old") (PStr "new")
           None world_redis_stale eq_refl eq_refl eq_refl Hok H4).
Defined.

(** [flush] on tiers that work empties the cache: every key reads as absent
    afterwards.  The snapshots saved on disk by the refresh are not part of
    the cache and stay. *)
Theorem flush_empties_the_cache_only w :
  use_redis w = false \/ redis_up w = true -> disk_ok w = true ->
  fst (flush w) = Ok true /\
  (forall key, fst (get key (snd (flush w))) = Ok PNone) /\
  json_files (snd (flush w)) = json_files w.
Proof.
  intros Hr Hd. cache_unfold.
  destruct (use_redis w) eqn:Hu; wsimpl.
  - destruct Hr as [Hr|Hr]; [discriminate|]. rewrite Hr. wsimpl. rewrite Hd.
    wsimpl. repeat split. intros key.
    repeat (rewrite ?Hu, ?Hr, ?Hd, ?lookup_empty; wsimpl).
    rewrite bool_decide_eq_false_2 by (intros [? ?]; discriminate).
    reflexivity.
  - rewrite Hd. wsimpl. repeat split. intros key.
    repeat (rewrite ?Hu, ?Hd, ?lookup_empty; wsimpl).
    rewrite bool_decide_eq_false_2 by (intros [? ?]; discriminate).
    reflexivity.
Qed.

Lemma flush_empties_the_cache_only_witness :
  (use_redis world_characters = false \/ redis_up world_characters = true) /\
  disk_ok world_characters = true /\
  fst (flush world_characters) = Ok true /\
  (forall key, fst (get key (snd (flush world_characters))) = Ok PNone) /\
  json_files (snd (flush world_characters)) = json_files world_characters.
Proof.
  assert (H1 : use_redis world_characters = false \/
               redis_up world_characters = true) by (left; reflexivity).
  split; [exact H1|]. split; [reflexivity|].
  exact (flush_empties_the_cache_only world_characters H1 eq_refl).
Defined.

(** Two keys with the same file name share their entry in the file tier:
    what is written under one is read under the other ([self.ttl] being a
    span [timedelta] accepts). *)
Theorem keys_with_one_file_name_collide k1 k2 value ttl_arg w :
  use_redis w = false -> disk_ok w = true ->
  timedelta_ok (ttl w) ->
  _get_file_path k1 = _get_file_path k2 ->
  fst (get k2 (snd (set k1 value ttl_arg w))) = Ok value.
Proof.
  intros Hu Hd Hok Hp. rewrite set_file_only by assumption.
  cache_unfold. rewrite Hu. wsimpl. rewrite Hd. wsimpl. rewrite <- Hp.
  rewrite lookup_insert_eq, bool_decide_eq_true_2 by eauto. wsimpl.
  destruct (Z.gtb_spec (ttl w) 0); wsimpl; rewrite ?Hd; wsimpl;
    rewrite ?lookup_insert_eq; wsimpl;
    rewrite ?(timedelta_ok_gtb _ Hok); wsimpl.
  - destruct (Z.gtb_spec (now w - now w) (seconds (ttl w)));
      [unfold seconds in *; lia|].
    rewrite ?Hd; wsimpl. rewrite ?lookup_insert_eq. reflexivity.
  - reflexivity.
Qed.

Lemma keys_with_one_file_name_collide_witness :
  use_redis world0 = false /\ disk_ok world0 = true /\
  timedelta_ok (ttl world0) /\
  _get_file_path "item:weapons:a/b" = _get_file_path "item:weapons:a:b" /\
  fst (get "item:weapons:a:b"
         (snd (set "item:weapons:a/b" (page "a/b") None world0)))
    = Ok (page "a/b").
Proof.
  assert (Hok : timedelta_ok (ttl world0)) by (vm_compute; discriminate).
  do 2 (split; [reflexivity|]). split; [exact Hok|]. split; [reflexivity|].
  exact (keys_with_one_file_name_collide "item:weapons:a/b" "item:weapons:a:b"
           (page "a/b") None world0 eq_refl eq_refl Hok eq_refl).
Defined.





(** When Redis is in use and gives nothing for a key -- the server does not
    answer, or it has no entry -- the read is answered from the file, as
    long as the file is not older than [self.ttl], a span [timedelta]
    accepts. *)
Theorem get_falls_back_to_the_file key v mtime w :
  use_redis w = true ->
  redis_up w = false \/ redis_db w !! key = None ->
  disk_ok w = true ->
  cache_files w !! _get_file_path key = Some (v, mtime) ->
  ttl w <= 0 \/ timedelta_ok (ttl w) /\ now w - mtime <= seconds (ttl w) ->
  fst (get key w) = Ok v.
Proof.
  intros Hu Hr Hd Hf Ht. cache_unfold. rewrite Hu. wsimpl.
  destruct (redis_up w) eqn:Hup; wsimpl.
  - destruct Hr as [Hr|Hr]; [discriminate|]. rewrite Hr. wsimpl.
    rewrite Hd. wsimpl. rewrite Hf.
    rewrite bool_decide_eq_true_2 by eauto. wsimpl.
    destruct (Z.gtb_spec (ttl w) 0); wsimpl; rewrite ?Hd; wsimpl;
      rewrite ?Hf; wsimpl; [|reflexivity].
    destruct Ht as [Ht|[Hok Ht]]; [lia|].
    rewrite (timedelta_ok_gtb _ Hok). wsimpl.
    destruct (Z.gtb_spec (now w - mtime) (seconds (ttl w))); [lia|].
    rewrite ?Hd; wsimpl. now rewrite Hf.
  - rewrite Hd. wsimpl. rewrite Hf.
    rewrite bool_decide_eq_true_2 by eauto. wsimpl.
    destruct (Z.gtb_spec (ttl w) 0); wsimpl; rewrite ?Hd; wsimpl;
      rewrite ?Hf; wsimpl; [|reflexivity].
    destruct Ht as [Ht|[Hok Ht]]; [lia|].
    rewrite (timedelta_ok_gtb _ Hok). wsimpl.
    destruct (Z.gtb_spec (now w - mtime) (seconds (ttl w))); [lia|].
    rewrite ?Hd; wsimpl. now rewrite Hf.
Qed.

Lemma get_falls_back_to_the_file_witness :
  use_redis world_redis_down_cached = true /\
  (redis_up world_redis_down_cached = false \/
   redis_db world_redis_down_cached !! "category:characters" = None) /\
  disk_ok world_redis_down_cached = true /\
  cache_files world_redis_down_cached !! _get_file_path "category:characters"
    = Some (characters_snapshot, 0) /\
  (ttl world_redis_down_cached <= 0 \/
   timedelta_ok (ttl world_redis_down_cached) /\
   now world_redis_down_cached - 0 <= seconds (ttl world_redis_down_cached)) /\
  fst (get "category:characters" world_redis_down_cached)
    = Ok characters_snapshot.
Proof.
  assert (H2 : redis_up world_redis_down_cached = false \/
               redis_db world_redis_down_cached !! "category:characters" = None)
    by (left; reflexivity).
  assert (H4 : cache_files world_redis_down_cached
                 !! _get_file_path "category:characters"
               = Some (characters_snapshot, 0)) by (vm_compute; reflexivity).
  assert (H5 : ttl world_redis_down_cached <= 0 \/
               timedelta_ok (ttl world_redis_down_cached) /\
               now world_redis_down_cached - 0
                 <= seconds (ttl world_redis_down_cached))
    by (right; split; vm_compute; discriminate).
  split; [reflexivity|]. split; [exact H2|]. split; [reflexivity|].
  split; [exact H4|]. split; [exact H5|].
  exact (get_falls_back_to_the_file "category:characters" characters_snapshot 0
           world_redis_down_cached eq_refl H2 eq_refl H4 H5).
Defined.

(** A read writes nothing: Redis, the snapshots and the queue are as
    before, one event is added to the trace, and the files of the cache are
    as before except that the file of the key may have been removed, in
    which case the read answers [None]. *)
Theorem get_only_evicts key w :
  let w' := snd (get key w) in
  redis_db w' = redis_db w /\
  json_files w' = json_files w /\
  background w' = background w /\
  use_redis w' = use_redis w /\
  trace w' = (trace w ++ [EvCacheGet key])%list /\
  (cache_files w' = cache_files w \/
   cache_files w' = delete (_get_file_path key) (cache_files w) /\
   fst (get key w) = Ok PNone).
Proof. exact (get_effects key w). Qed.

(** * Further properties of the routes *)

Lemma stateless_ret {A} (a : A) : stateless (ret a).
Proof. exists (Ok a). reflexivity. Qed.

Lemma stateless_raise {A} (e : exn) : stateless (raise (A:=A) e).
Proof. exists (Raise e). reflexivity. Qed.

Lemma stateless_bind {A B} (m : M A) (k : A -> M B) :
  stateless m -> (forall a, stateless (k a)) -> stateless (bind m k).
Proof.
  intros [[a|e] Hm] Hk.
  - destruct (Hk a) as [r Hr]. exists r. intros w.
    rewrite bind_run, Hm. apply Hr.
  - exists (Raise e). intros w. now rewrite bind_run, Hm.
Qed.

Lemma stateless_keeps {A} (P : world -> world -> Prop) (m : M A) :
  (forall w, P w w) -> stateless m -> keeps P m.
Proof. intros Hrefl [r Hr] w. rewrite Hr. apply Hrefl. Qed.

Ltac stateless_step :=
  match goal with
  | |- stateless (bind _ _) => apply stateless_bind; [|intros ?]
  | |- stateless (ret _) => apply stateless_ret
  | |- stateless (raise _) => apply stateless_raise
  | |- stateless (if ?b then _ else _) => destruct b
  | |- stateless (match ?x with _ => _ end) => destruct x
  end.

Section CategoryRouteMore.
Context {wiki_item : Type} (WikiItem : pydict -> option wiki_item).

Lemma stateless_paginate category_name category_data limit offset :
  stateless (paginate WikiItem category_name category_data limit offset).
Proof. unfold paginate. cbv zeta. repeat stateless_step. Qed.

(** The run of the handler on a category whose cache entry has items. *)
Lemma get_category_items_hit category_name limit offset w d :
  In category_name (map fst CATEGORIES) ->
  fst (get ("category:" ++ category_name) w) = Ok (PDict d) -> d <> [] ->
  get_category_items WikiItem category_name limit offset false w =
    (fst (paginate WikiItem category_name (PDict d) limit offset w),
     snd (get ("category:" ++ category_name) w)).
Proof.
  intros Hin Hget Hd. apply in_CATEGORIES_spec in Hin.
  unfold get_category_items. rewrite Hin. cbn [negb].
  rewrite bind_run. unfold resolve_category_data. cbn [negb].
  rewrite bind_run. unfold get_category_data. rewrite bind_run.
  destruct (get ("category:" ++ category_name) w) as [r w1].
  cbn [fst snd] in *. subst r. unfold ret at 1.
  destruct d as [|kv d]; [contradiction|].
  cbn [py_or truthy length Nat.eqb negb orb]. unfold ret at 1.
  destruct (stateless_paginate category_name (PDict (kv :: d)) limit offset)
    as [r Hr].
  now rewrite !Hr.
Qed.

(** A request for a category whose cache entry has items is answered from
    that entry and does nothing else: one cache read is traced, no task is
    queued, and the snapshots on disk and Redis are not touched. *)
Theorem cache_hit_has_no_side_effect category_name limit offset w d :
  In category_name (map fst CATEGORIES) ->
  fst (get ("category:" ++ category_name) w) = Ok (PDict d) -> d <> [] ->
  let r := get_category_items WikiItem category_name limit offset false w in
  fst r = fst (paginate WikiItem category_name (PDict d) limit offset w) /\
  background (snd r) = background w /\
  json_files (snd r) = json_files w /\
  redis_db (snd r) = redis_db w /\
  trace (snd r) = (trace w ++ [EvCacheGet ("category:" ++ category_name)])%list.
Proof.
  intros Hin Hget Hd r. subst r.
  rewrite (get_category_items_hit _ limit offset w d Hin Hget Hd).
  cbn [fst snd].
  destruct (get_effects ("category:" ++ category_name) w)
    as (H1 & H2 & H3 & _ & H5 & _).
  repeat split; assumption.
Qed.

(** With [refresh=true] the cache is not read: a task is queued, the only
    access is to the snapshot on disk, and without a snapshot the answer is
    202 whatever the cache holds. *)
Theorem forced_refresh_bypasses_the_cache category_name limit offset w :
  In category_name (map fst CATEGORIES) ->
  let r := get_category_items WikiItem category_name limit offset true w in
  background (snd r) = (background w ++ [category_name])%list /\
  cache_files (snd r) = cache_files w /\
  redis_db (snd r) = redis_db w /\
  trace (snd r) = (trace w ++ [EvDiskRead (snapshot_path category_name)])%list /\
  (json_files w !! snapshot_path category_name = None ->
   fst r = Ok (JSONResponse 202)).
Proof.
  intros Hin r. subst r. apply in_CATEGORIES_spec in Hin.
  unfold get_category_items. rewrite Hin. cbn [negb].
  rewrite bind_run. unfold resolve_category_data. cbn [negb].
  rewrite bind_run. unfold ret at 1. cbv beta iota.
  cbn [truthy negb orb].
  unfold scrape_category_async, json_exists, json_load.
  fold (snapshot_path category_name).
  assert (Hp : forall v w0,
             snd (paginate WikiItem category_name v limit offset w0) = w0).
  { intros v w0.
    destruct (stateless_paginate category_name v limit offset) as [r Hr].
    now rewrite Hr. }
  run. cbn [truthy negb orb]. wsimpl.
  destruct (disk_ok w) eqn:Hd; wsimpl.
  2: { repeat split; reflexivity. }
  destruct (json_files w !! snapshot_path category_name) as [[doc|]|] eqn:Hf;
    wsimpl.
  - rewrite bool_decide_eq_true_2 by eauto. wsimpl. rewrite Hf.
    destruct (truthy doc); cbn [negb]; wsimpl; rewrite ?Hp; wsimpl;
      repeat split; try reflexivity; discriminate.
  - rewrite bool_decide_eq_true_2 by eauto. wsimpl. rewrite Hf.
    repeat split; try reflexivity; discriminate.
  - rewrite bool_decide_eq_false_2 by (intros [? ?]; discriminate).
    repeat split; reflexivity.
Qed.

(** After a refresh that found members, a request for the category is
    answered with the page of what the scraper returned ([self.ttl] being a
    span [timedelta] accepts). *)
Theorem refresh_then_read category_name result limit offset w :
  In category_name (map fst CATEGORIES) ->
  wiki w category_name = Ok result -> result <> [] ->
  use_redis w && redis_up w || disk_ok w = true ->
  timedelta_ok (ttl w) ->
  fst (get_category_items WikiItem category_name limit offset false
         (snd (_scrape category_name w))) =
  fst (paginate WikiItem category_name (PDict result) limit offset w).
Proof.
  intros Hin Hw Hne Hok Httl.
  destruct result as [|[title item_data] rest]; [contradiction|].
  destruct (_scrape_nonempty_skips_disk category_name title item_data rest w Hw)
    as [_ Hs].
  rewrite Hs. unfold set_category_data.
  set (w1 := set_trace _ w).
  assert (Hget : fst (get ("category:" ++ category_name)
                        (snd (set ("category:" ++ category_name)
                                (PDict ((title, item_data) :: rest)) None w1)))
                 = Ok (PDict ((title, item_data) :: rest)))
    by (apply get_after_set; [exact Hok|exact Httl]).
  rewrite (get_category_items_hit _ limit offset _ _ Hin Hget)
    by discriminate.
  cbn [fst].
  destruct (stateless_paginate category_name
              (PDict ((title, item_data) :: rest)) limit offset) as [r Hr].
  now rewrite !Hr.
Qed.
End CategoryRouteMore.

Lemma cache_hit_has_no_side_effect_witness :
  In "characters" (map fst CATEGORIES) /\
  fst (get ("category:" ++ "characters") world_characters)
    = Ok characters_snapshot /\
  [("Johnny Silverhand", page "Johnny Silverhand");
   ("Judy Alvarez", page "Judy Alvarez")] <> [] /\
  let r := get_category_items (wiki_item:=pydict) Some "characters" 10 0 false
             world_characters in
  fst r = fst (paginate Some "characters" characters_snapshot 10 0
                 world_characters) /\
  background (snd r) = background world_characters /\
  json_files (snd r) = json_files world_characters /\
  redis_db (snd r) = redis_db world_characters /\
  trace (snd r) =
    (trace world_characters ++ [EvCacheGet ("category:" ++ "characters")])%list.
Proof.
  assert (H1 : In "characters" (map fst CATEGORIES)) by (cbn; auto).
  assert (H2 : fst (get ("category:" ++ "characters") world_characters)
               = Ok characters_snapshot) by (vm_compute; reflexivity).
  assert (H3 : [("Johnny Silverhand", page "Johnny Silverhand");
                ("Judy Alvarez", page "Judy Alvarez")] <> []) by discriminate.
  do 3 (split; [assumption|]).
  exact (cache_hit_has_no_side_effect Some "characters" 10 0 world_characters _
           H1 H2 H3).
Defined.

Lemma forced_refresh_bypasses_the_cache_witness :
  In "vehicles" (map fst CATEGORIES) /\
  let r := get_category_items (wiki_item:=pydict) Some "vehicles" 10 0 true
             world_vehicles in
  background (snd r) = (background world_vehicles ++ ["vehicles"])%list /\
  cache_files (snd r) = cache_files world_vehicles /\
  redis_db (snd r) = redis_db world_vehicles /\
  trace (snd r) =
    (trace world_vehicles ++ [EvDiskRead (snapshot_path "vehicles")])%list /\
  (json_files world_vehicles !! snapshot_path "vehicles" = None ->
   fst r = Ok (JSONResponse 202)).
Proof.
  assert (H1 : In "vehicles" (map fst CATEGORIES)) by (cbn; auto).
  split; [exact H1|].
  exact (forced_refresh_bypasses_the_cache Some "vehicles" 10 0 world_vehicles
           H1).
Defined.

Lemma refresh_then_read_witness :
  In "characters" (map fst CATEGORIES) /\
  wiki world_wiki "characters"
    = Ok [("Johnny Silverhand", page "Johnny Silverhand");
          ("Judy Alvarez", page "Judy Alvarez")] /\
  [("Johnny Silverhand", page "Johnny Silverhand");
   ("Judy Alvarez", page "Judy Alvarez")] <> [] /\
  use_redis world_wiki && redis_up world_wiki || disk_ok world_wiki = true /\
  timedelta_ok (ttl world_wiki) /\
  fst (get_category_items (wiki_item:=pydict) Some "characters" 10 0 false
         (snd (_scrape "characters" world_wiki))) =
  fst (paginate Some "characters" characters_snapshot 10 0 world_wiki).
Proof.
  assert (H1 : In "characters" (map fst CATEGORIES)) by (cbn; auto).
  assert (H3 : [("Johnny Silverhand", page "Johnny Silverhand");
                ("Judy Alvarez", page "Judy Alvarez")] <> []) by discriminate.
  assert (H5 : timedelta_ok (ttl world_wiki)) by (vm_compute; discriminate).
  split; [exact H1|]. split; [reflexivity|]. split; [exact H3|].
  split; [reflexivity|]. split; [exact H5|].
  exact (refresh_then_read Some "characters" _ 10 0 world_wiki H1 eq_refl H3
           eq_refl H5).
Defined.

(** The refresh route: a name that is neither configured nor ["all"] is
    answered 404 and queues nothing; ["all"] queues one task for every
    configured category, in the order of the configuration. *)
Theorem refresh_category_unknown_and_all name w :
  ~ In name (map fst CATEGORIES) -> name <> "all" ->
  refresh_category name w = (Raise (HTTPException 404), w) /\
  snd (refresh_category "all" w) =
    set_background (fun q => (q ++ map fst CATEGORIES)%list) w.
Proof.
  intros Hn Hall. split.
  - unfold refresh_category.
    destruct (in_CATEGORIES name) eqn:E.
    + apply in_CATEGORIES_spec in E. contradiction.
    + apply String.eqb_neq in Hall. rewrite Hall. reflexivity.
  - unfold refresh_category, scrape_category_async. cbn [in_CATEGORIES].
    run. cbn. unfold set_background. cbn.
    rewrite <- !app_assoc. reflexivity.
Qed.

Lemma refresh_category_unknown_and_all_witness :
  ~ In "cyberware" (map fst CATEGORIES) /\ "cyberware" <> "all" /\
  refresh_category "cyberware" world0 = (Raise (HTTPException 404), world0) /\
  snd (refresh_category "all" world0) =
    set_background (fun q => (q ++ map fst CATEGORIES)%list) world0.
Proof.
  assert (H1 : ~ In "cyberware" (map fst CATEGORIES))
    by (cbn; intuition discriminate).
  assert (H2 : "cyberware" <> "all") by discriminate.
  do 2 (split; [assumption|]).
  exact (refresh_category_unknown_and_all "cyberware" world0 H1 H2).
Defined.

(** A task whose scraper found members writes the snapshot under the
    category key and stops at its first item: the trace shows the run of
    the scraper and one cache write, the snapshot is readable afterwards
    ([self.ttl] being a span [timedelta] accepts), and nothing is written
    on disk. *)
Theorem nonempty_refresh_writes_the_category_entry_only
    category_name title item_data rest w :
  wiki w category_name = Ok ((title, item_data) :: rest) ->
  use_redis w && redis_up w || disk_ok w = true ->
  timedelta_ok (ttl w) ->
  let w' := snd (_scrape category_name w) in
  fst (get_category_data category_name w')
    = Ok (PDict ((title, item_data) :: rest)) /\
  trace w' = (trace w ++ [EvScrape category_name;
                          EvCacheSet ("category:" ++ category_name)])%list /\
  json_files w' = json_files w /\
  background w' = background w.
Proof.
  intros Hw Hok Httl. cbv zeta.
  destruct (_scrape_nonempty_skips_disk category_name title item_data rest w Hw)
    as [Hj Hs].
  split.
  - rewrite Hs. unfold set_category_data, get_category_data.
    rewrite bind_run.
    set (w1 := set_trace _ w).
    pose proof (get_after_set ("category:" ++ category_name)
                  (PDict ((title, item_data) :: rest)) None w1 Hok Httl) as Hg.
    destruct (get _ _) as [r w2]. cbn [fst] in Hg. subst r. reflexivity.
  - split; [|split; [exact Hj|]].
    + rewrite Hs. unfold set_category_data. cache_unfold.
      split_cases; rewrite <- app_assoc; reflexivity.
    + rewrite Hs. unfold set_category_data. cache_unfold.
      split_cases; reflexivity.
Qed.

Lemma nonempty_refresh_writes_the_category_entry_only_witness :
  wiki world_wiki "characters"
    = Ok (("Johnny Silverhand", page "Johnny Silverhand")
          :: [("Judy Alvarez", page "Judy Alvarez")]) /\
  use_redis world_wiki && redis_up world_wiki || disk_ok world_wiki = true /\
  timedelta_ok (ttl world_wiki) /\
  let w' := snd (_scrape "characters" world_wiki) in
  fst (get_category_data "characters" w') = Ok characters_snapshot /\
  trace w' = (trace world_wiki ++ [EvScrape "characters";
                                   EvCacheSet ("category:" ++ "characters")])%list /\
  json_files w' = json_files world_wiki /\
  background w' = background world_wiki.
Proof.
  assert (H3 : timedelta_ok (ttl world_wiki)) by (vm_compute; discriminate).
  do 2 (split; [reflexivity|]). split; [exact H3|].
  exact (nonempty_refresh_writes_the_category_entry_only "characters"
           "Johnny Silverhand" (page "Johnny Silverhand")
           [("Judy Alvarez", page "Judy Alvarez")] world_wiki eq_refl eq_refl
           H3).
Defined.

(** A task whose scraper raises ends normally and leaves the cache, the
    snapshots on disk and the queue as they were. *)
Theorem failed_refresh_changes_nothing category_name e w :
  wiki w category_name = Raise e ->
  fst (_scrape category_name w) = Ok tt /\
  let w' := snd (_scrape category_name w) in
  cache_files w' = cache_files w /\ redis_db w' = redis_db w /\
  json_files w' = json_files w /\ background w' = background w /\
  trace w' = (trace w ++ [EvScrape category_name])%list.
Proof.
  intros Hw. split; [apply try_except_unit|]. cbv zeta.
  rewrite (_scrape_failed_keeps_stores category_name e w Hw).
  repeat split.
Qed.

Lemma failed_refresh_changes_nothing_witness :
  wiki world_wiki_down "characters" = Raise ScraperError /\
  fst (_scrape "characters" world_wiki_down) = Ok tt /\
  let w' := snd (_scrape "characters" world_wiki_down) in
  cache_files w' = cache_files world_wiki_down /\
  redis_db w' = redis_db world_wiki_down /\
  json_files w' = json_files world_wiki_down /\
  background w' = background world_wiki_down /\
  trace w' = (trace world_wiki_down ++ [EvScrape "characters"])%list.
Proof.
  split; [reflexivity|].
  exact (failed_refresh_changes_nothing "characters" ScraperError
           world_wiki_down eq_refl).
Defined.

(** Running the queued tasks always comes to an end normally, whatever the
    scraper and the tiers do, and leaves the queue empty. *)
Theorem drain_background_empties_the_queue w :
  fst (drain_background w) = Ok tt /\
  background (snd (drain_background w)) = [].
Proof.
  unfold drain_background. rewrite bind_run. unfold gets.
  destruct (for_run_background "" (background w) w eq_refl) as (H1 & _ & H3).
  split; assumption.
Qed.

(** The route that clears the cache calls two methods that [RedisCache]
    does not have: with or without categories it answers 500 and the cache
    is as before. *)
Theorem clear_cache_always_fails categories w :
  clear_cache categories w = (Raise (HTTPException 500), w).
Proof. destruct categories as [[|cat rest]|]; reflexivity. Qed.

(** ** The search *)

Lemma only_evicted_refl w : only_evicted w w.
Proof. unfold only_evicted. auto. Qed.

Lemma only_evicted_trans a b c :
  only_evicted a b -> only_evicted b c -> only_evicted a c.
Proof.
  intros (? & ? & ? & ?) (? & ? & ? & ?).
  unfold only_evicted. repeat split; try congruence.
  etrans; eassumption.
Qed.

Lemma only_evicted_get key : keeps only_evicted (get key).
Proof.
  intros w. destruct (get_effects key w) as (H1 & H2 & H3 & _ & _ & H6).
  unfold only_evicted. do 3 (split; [assumption|]).
  destruct H6 as [->|[-> _]]; [reflexivity|apply delete_subseteq].
Qed.

Lemma only_evicted_get_category_data category :
  keeps only_evicted (get_category_data category).
Proof.
  unfold get_category_data.
  apply keeps_bind; [apply only_evicted_trans|apply only_evicted_get|].
  intros v. apply keeps_ret, only_evicted_refl.
Qed.

Lemma only_evicted_get_search_results query :
  keeps only_evicted (get_search_results query).
Proof.
  unfold get_search_results.
  apply keeps_bind; [apply only_evicted_trans|apply only_evicted_get|].
  intros v. apply keeps_ret, only_evicted_refl.
Qed.

Lemma stateless_lower_of v : stateless (lower_of v).
Proof. unfold lower_of. repeat stateless_step. Qed.

Lemma stateless_section_matches nq section :
  stateless (section_matches nq section).
Proof.
  unfold section_matches.
  repeat first [apply stateless_lower_of | stateless_step].
Qed.

Lemma stateless_any_section nq sections : stateless (any_section nq sections).
Proof.
  induction sections as [|s l IH]; cbn [any_section].
  - apply stateless_ret.
  - apply stateless_bind; [apply stateless_section_matches|].
    intros []; [apply stateless_ret|exact IH].
Qed.

Lemma stateless_item_matches nq title d : stateless (item_matches nq title d).
Proof.
  unfold item_matches. cbv zeta.
  repeat first [ apply stateless_lower_of | apply stateless_any_section
               | stateless_step ].
Qed.

Lemma stateless_tag_category cat_key d : stateless (tag_category cat_key d).
Proof. unfold tag_category. cbv zeta. repeat stateless_step. Qed.

Lemma stateless_search_snapshot nq cat_key items :
  forall results, stateless (search_snapshot nq cat_key items results).
Proof.
  induction items as [|[title item_data] items IH]; intros results;
    cbn [search_snapshot].
  - apply stateless_ret.
  - destruct item_data;
      try (destruct (contains nq (lower title)); apply stateless_raise).
    apply stateless_bind; [apply stateless_item_matches|].
    intros []; [|apply IH].
    apply stateless_bind; [apply stateless_tag_category|]. intros d'. apply IH.
Qed.

(** The scan of the categories only reads the cache. *)
Lemma only_evicted_search_categories nq categories cats :
  forall results,
    keeps only_evicted (search_categories nq categories cats results).
Proof.
  induction cats as [|[cat_key cat_name] cats IH]; intros results;
    cbn [search_categories].
  - apply keeps_ret, only_evicted_refl.
  - destruct (has_filter categories && negb (in_filter cat_key categories)
              && negb (in_filter cat_name categories)); [apply IH|].
    apply keeps_bind;
      [apply only_evicted_trans|apply only_evicted_get_category_data|].
    intros category_data.
    destruct (negb (truthy category_data)); [apply IH|].
    destruct category_data;
      try (apply keeps_raise, only_evicted_refl).
    apply keeps_bind; [apply only_evicted_trans| |intros r; apply IH].
    apply stateless_keeps;
      [apply only_evicted_refl|apply stateless_search_snapshot].
Qed.

(** [Settings] has no [MAX_SEARCH_RESULTS]. *)
Lemma settings_MAX_SEARCH_RESULTS w :
  settings_int "MAX_SEARCH_RESULTS" w = (Raise AttributeError, w).
Proof. reflexivity. Qed.

(** What [search_in_cache] does when no result is cached for the query: it
    scans the categories and raises, at the latest when it reads the
    setting; [set_search_results] is not reached. *)
Lemma search_in_cache_miss q categories w :
  fst (get_search_results (normalize_query q) w) = Ok (PList []) ->
  let w1 := snd (get_search_results (normalize_query q) w) in
  match search_categories (normalize_query q) categories CATEGORIES [] w1 with
  | (Ok results, w2) =>
      search_in_cache q categories w = (Raise AttributeError, w2)
  | (Raise e, w2) => search_in_cache q categories w = (Raise e, w2)
  end.
Proof.
  intros Hmiss. cbv zeta. unfold search_in_cache. rewrite bind_run.
  destruct (get_search_results (normalize_query q) w) as [r w1].
  cbn [fst snd] in *. subst r. cbn [truthy length Nat.eqb negb].
  rewrite bind_run.
  destruct (search_categories _ _ _ _ w1) as [[results|e] w2]; [|reflexivity].
  now rewrite bind_run, settings_MAX_SEARCH_RESULTS.
Qed.

Section SearchRouteMore.
Context {wiki_item : Type} (WikiItem : pydict -> option wiki_item).

(** A search that is not answered from the cache is not answered at all:
    after the scan of the categories [search_in_cache] reads
    [settings.MAX_SEARCH_RESULTS], which [Settings] does not have, and the
    handler answers 500.  Nothing is stored on the way: no search entry is
    written, and the cache changes by evictions only. *)
Theorem uncached_search_answers_500 q categories limit offset w :
  2 <= len (strip q) ->
  fst (get_search_results (normalize_query q) w) = Ok (PList []) ->
  let r := search_items WikiItem q categories limit offset w in
  (exists e, fst (search_in_cache q categories w) = Raise e) /\
  fst r = Raise (HTTPException 500) /\
  only_evicted w (snd r).
Proof.
  intros Hq Hmiss. cbv zeta.
  pose proof (search_in_cache_miss q categories w Hmiss) as H. cbv zeta in H.
  pose proof (only_evicted_get_search_results (normalize_query q) w) as K1.
  pose proof (only_evicted_search_categories (normalize_query q) categories
                CATEGORIES []
                (snd (get_search_results (normalize_query q) w))) as K2.
  assert (Hguard : (len q =? 0) || (len (strip q) <? 2) = false).
  { destruct (Z.ltb_spec (len (strip q)) 2); [lia|].
    destruct (Z.eqb_spec (len q) 0) as [E|E]; [|reflexivity].
    destruct q; [cbn in Hq; lia|unfold len in E; cbn in E; lia]. }
  unfold search_items. rewrite Hguard. unfold try_except. rewrite bind_run.
  destruct (search_categories _ _ _ _ _) as [[results|e] w2];
    cbn [snd] in K2; rewrite H; cbn [fst snd raise];
    (split; [eauto|split; [reflexivity|]]);
    exact (only_evicted_trans _ _ _ K1 K2).
Qed.

(** A query that is too short is refused before the cache is touched. *)
Theorem short_query_touches_nothing q categories limit offset w :
  len (strip q) < 2 ->
  search_items WikiItem q categories limit offset w =
    (Raise (HTTPException 400), w).
Proof.
  intros H. unfold search_items.
  destruct (Z.ltb_spec (len (strip q)) 2); [|lia].
  now rewrite orb_true_r.
Qed.
End SearchRouteMore.

Lemma uncached_search_answers_500_witness :
  2 <= len (strip " JUDY ") /\
  fst (get_search_results (normalize_query " JUDY ") world_characters)
    = Ok (PList []) /\
  let r := search_items (wiki_item:=pydict) Some " JUDY " None 10 0
             world_characters in
  (exists e, fst (search_in_cache " JUDY " None world_characters) = Raise e) /\
  fst r = Raise (HTTPException 500) /\
  only_evicted world_characters (snd r).
Proof.
  assert (H1 : 2 <= len (strip " JUDY ")) by (vm_compute; discriminate).
  assert (H2 : fst (get_search_results (normalize_query " JUDY ")
                      world_characters) = Ok (PList []))
    by (vm_compute; reflexivity).
  split; [exact H1|]. split; [exact H2|].
  exact (uncached_search_answers_500 Some " JUDY " None 10 0 world_characters
           H1 H2).
Defined.

Lemma short_query_touches_nothing_witness :
  len (strip "  a  ") < 2 /\
  search_items (wiki_item:=pydict) Some "  a  " None 10 0
    world_characters = (Raise (HTTPException 400), world_characters).
Proof.
  assert (H : len (strip "  a  ") < 2) by (vm_compute; reflexivity).
  split; [exact H|].
  exact (short_query_touches_nothing Some "  a  " None 10 0
           world_characters H).
Defined.

(** ** The directory of categories *)

Section DirectoryMore.
Variable all_wiki_categories : list string.

Lemma add_category_keys_list keys :
  forall l w, NoDup keys ->
    add_category_keys keys (PList l) w =
      (Ok (PList (l ++ map PStr
                         (List.filter (fun k => negb (existsb (is_str k) l))
                            keys))), w).
Proof.
  induction keys as [|k keys IH]; intros l w Hnd; cbn [add_category_keys].
  - cbn. now rewrite app_nil_r.
  - apply NoDup_cons in Hnd. destruct Hnd as [Hk Hnd].
    rewrite bind_run. cbn [py_in]. unfold ret at 1.
    cbn [List.filter]. destruct (existsb (is_str k) l) eqn:E; cbn [negb].
    + apply IH, Hnd.
    + rewrite IH by exact Hnd. do 2 f_equal.
      rewrite <- app_assoc. cbn [app map]. do 3 f_equal.
      f_equal. apply filter_ext_in. intros k' Hk'. f_equal.
      rewrite existsb_app. cbn [existsb is_str].
      destruct (String.eqb_spec k' k) as [->|_];
        [exfalso; apply Hk, list_elem_of_In, Hk'|].
      now rewrite !orb_false_r.
Qed.

(** [get_categories], when the cache has a list of names or nothing: the
    answer is that list -- or, without one, the names the wiki gave --
    followed by the configured keys that are not in it, in the order of the
    configuration; every configured key is in the answer. *)
Theorem get_categories_lists_every_configured_key w v :
  fst (get "all_categories" w) = Ok v ->
  v = PNone \/ (exists l, v = PList l) ->
  let base := match v with
              | PList (x :: l) => x :: l
              | _ => map PStr all_wiki_categories
              end in
  let names :=
    (base ++ map PStr (List.filter (fun k => negb (existsb (is_str k) base))
                         (map fst CATEGORIES)))%list in
  fst (get_categories all_wiki_categories w)
    = Ok (PDict [("categories", PList names)]) /\
  (forall k, In k (map fst CATEGORIES) -> In (PStr k) names).
Proof.
  intros Hget Hv. cbv zeta. split.
  - assert (Hnd : NoDup (map fst CATEGORIES))
      by (apply (bool_decide_unpack _); vm_compute; exact I).
    unfold get_categories, try_except. rewrite bind_run.
    unfold get_all_categories. rewrite bind_run.
    destruct (get "all_categories" w) as [r w1]. cbn [fst] in Hget. subst r.
    unfold ret at 1.
    assert (Hcase : (exists x l, v = PList (x :: l)) \/
                    (truthy (py_or v (PDict [])) = false /\
                     py_or v (PDict []) = PDict []
                     /\ match v with
                        | PList (x :: l) => x :: l
                        | _ => map PStr all_wiki_categories
                        end = map PStr all_wiki_categories)).
    { destruct Hv as [->|[[|x l] ->]]; [right|right|left; eauto];
        repeat split. }
    destruct Hcase as [(x & l & ->)|(Ht & Hp & Hb)].
    + cbn [py_or truthy length Nat.eqb negb]. rewrite bind_run.
      unfold ret at 1. cbn [truthy length Nat.eqb negb].
      rewrite bind_run, add_category_keys_list by exact Hnd. reflexivity.
    + rewrite Ht, Hb. cbn [negb]. rewrite bind_run, bind_run.
      unfold get_all_wiki_categories, ret at 1.
      destruct all_wiki_categories as [|n ns].
      * cbn [map truthy length Nat.eqb negb]. rewrite bind_run.
        unfold ret at 1 2. cbn [truthy length Nat.eqb negb].
        rewrite bind_run, add_category_keys_list by exact Hnd. reflexivity.
      * cbn [map truthy length Nat.eqb negb]. rewrite bind_run, bind_run.
        unfold set_all_categories.
        pose proof (set_result "all_categories"
                      (PList (PStr n :: map PStr ns)) None w1) as Hs.
        destruct (set _ _ _ w1) as [rs w2]. cbn [fst] in Hs. subst rs.
        unfold ret at 1 2. cbn [truthy length Nat.eqb negb].
        rewrite bind_run, add_category_keys_list by exact Hnd. reflexivity.
  - intros k Hk.
    set (base := match v with
                 | PList (x :: l) => x :: l
                 | _ => map PStr all_wiki_categories
                 end).
    apply in_or_app. destruct (existsb (is_str k) base) eqn:E.
    + left. apply existsb_exists in E. destruct E as (x & Hx & Hs).
      destruct x; try discriminate. cbn in Hs. apply String.eqb_eq in Hs.
      now subst.
    + right. apply in_map, filter_In. split; [exact Hk|]. now rewrite E.
Qed.
End DirectoryMore.

Lemma get_categories_lists_every_configured_key_witness :
  fst (get "all_categories" world0) = Ok PNone /\
  (PNone = PNone \/ (exists l, PNone = PList l)) /\
  let names := [PStr "Cyberpunk 2077 Characters"; PStr "weapons";
                PStr "characters"; PStr "vehicles"; PStr "locations";
                PStr "perks"; PStr "items"] in
  fst (get_categories ["Cyberpunk 2077 Characters"; "weapons"] world0)
    = Ok (PDict [("categories", PList names)]) /\
  (forall k, In k (map fst CATEGORIES) -> In (PStr k) names).
Proof.
  assert (H1 : fst (get "all_categories" world0) = Ok PNone)
    by (vm_compute; reflexivity).
  assert (H2 : PNone = PNone \/ (exists l, PNone = PList l))
    by (left; reflexivity).
  split; [exact H1|]. split; [exact H2|].
  exact (get_categories_lists_every_configured_key
           ["Cyberpunk 2077 Characters"; "weapons"] world0 PNone H1 H2).
Defined.

(** ** Pages and file names *)

Section Pages.
Context {wiki_item : Type} (WikiItem : pydict -> option wiki_item).

Lemma page_items_eq category_name d limit offset w :
  0 <= offset -> 0 <= limit ->
  page_items WikiItem category_name d limit offset w =
    omap (format_item WikiItem)
      (firstn (Z.to_nat limit) (skipn (Z.to_nat offset) (dict_values d))).
Proof.
  intros Ho Hl. unfold page_items, paginate, ret.
  destruct (Z.geb_spec offset (Z.of_nat (length (dict_values d))));
    cbn [fst].
  - rewrite skipn_all2 by lia. now rewrite firstn_nil.
  - now rewrite py_slice_page.
Qed.

(** Consecutive pages of a snapshot join without gap or overlap: a page of
    [limit] records followed by the page of [limit'] records that starts
    where it ends is the page of [limit + limit'] records. *)
Theorem consecutive_pages_compose category_name d limit limit' offset w :
  0 <= offset -> 0 <= limit -> 0 <= limit' ->
  (page_items WikiItem category_name d limit offset w
   ++ page_items WikiItem category_name d limit' (offset + limit) w)%list =
  page_items WikiItem category_name d (limit + limit') offset w.
Proof.
  intros Ho Hl Hl'. rewrite !page_items_eq by lia.
  rewrite <- omap_app. f_equal.
  replace (Z.to_nat (offset + limit))
    with (Z.to_nat offset + Z.to_nat limit)%nat by lia.
  replace (Z.to_nat (limit + limit'))
    with (Z.to_nat limit + Z.to_nat limit')%nat by lia.
  rewrite <- drop_drop. apply take_take_drop.
Qed.
End Pages.

Lemma consecutive_pages_compose_witness :
  0 <= 20 /\ 0 <= 3 /\ 0 <= 7 /\
  (page_items (wiki_item:=pydict) Some "vehicles" (pages 25 "x") 3 20 world0
   ++ page_items Some "vehicles" (pages 25 "x") 7 (20 + 3) world0)%list =
  page_items Some "vehicles" (pages 25 "x") (3 + 7) 20 world0.
Proof.
  assert (H1 : 0 <= 20) by lia. assert (H2 : 0 <= 3) by lia.
  assert (H3 : 0 <= 7) by lia.
  do 3 (split; [assumption|]).
  exact (consecutive_pages_compose Some "vehicles" (pages 25 "x") 3 7 20 world0
           H1 H2 H3).
Defined.

(** The file name made from a title of ASCII characters has the length of
    the title and only letters, digits and underscores -- no separator, no
    dot -- and a name of that kind is left as it is.  (A letter or digit
    beyond ASCII is alphanumeric for Python and would be kept.) *)
Theorem safe_title_is_a_plain_name title :
  all_chars is_ascii title = true ->
  String.length (safe_title title) = String.length title /\
  all_chars (fun c => isalnum c || Ascii.eqb c "_") (safe_title title) = true /\
  safe_title (safe_title title) = safe_title title.
Proof.
  intros _. unfold safe_title. induction title as [|c s (IH1 & IH2 & IH3)];
    cbn [map_chars all_chars String.length]; [auto|].
  rewrite IH1, IH2, IH3. repeat split; auto.
  - destruct (isalnum c) eqn:E; [now rewrite E|reflexivity].
  - destruct (isalnum c) eqn:E; [now rewrite E|reflexivity].
Qed.

Lemma safe_title_is_a_plain_name_witness :
  all_chars is_ascii "V's Apartment / H10.json" = true /\
  safe_title "V's Apartment / H10.json" = "V_s_Apartment___H10_json" /\
  String.length (safe_title "V's Apartment / H10.json")
    = String.length "V's Apartment / H10.json" /\
  all_chars (fun c => isalnum c || Ascii.eqb c "_")
    (safe_title "V's Apartment / H10.json") = true /\
  safe_title (safe_title "V's Apartment / H10.json")
    = safe_title "V's Apartment / H10.json".
Proof.
  do 2 (split; [reflexivity|]).
  exact (safe_title_is_a_plain_name "V's Apartment / H10.json" eq_refl).
Defined.

Lemma replace_char_spec a b s :
  a <> b ->
  String.length (replace_char a b s) = String.length s /\
  all_chars (fun c => negb (Ascii.eqb c a)) (replace_char a b s) = true.
Proof.
  intros Hab. unfold replace_char.
  induction s as [|c s [IH1 IH2]]; cbn [map_chars all_chars String.length];
    [auto|].
  rewrite IH1, IH2. split; [reflexivity|].
  destruct (Ascii.eqb_spec c a) as [->|Hc].
  - destruct (Ascii.eqb_spec b a); [congruence|reflexivity].
  - destruct (Ascii.eqb_spec c a); [contradiction|reflexivity].
Qed.

Lemma replace_char_keeps p a b s :
  p b = true -> all_chars p s = true -> all_chars p (replace_char a b s) = true.
Proof.
  intros Hb. unfold replace_char.
  induction s as [|c s IH]; cbn [map_chars all_chars]; [auto|].
  intros H. apply andb_true_iff in H. destruct H as [Hc Hs].
  rewrite (IH Hs). destruct (Ascii.eqb c a); [now rewrite Hb|now rewrite Hc].
Qed.

(** The file of a cache key lies directly in [TEMP_DIR]: its name is the
    key, with the length of the key and without any slash, colon or
    question mark, followed by [.cache]. *)
Theorem cache_file_is_directly_in_temp_dir key :
  exists safe_key,
    _get_file_path key = TEMP_DIR ++ "/" ++ safe_key ++ ".cache" /\
    String.length safe_key = String.length key /\
    all_chars (fun c => negb (Ascii.eqb c "/") && negb (Ascii.eqb c ":")
                        && negb (Ascii.eqb c "?")) safe_key = true.
Proof.
  eexists. split; [reflexivity|]. split.
  - destruct (replace_char_spec "?" "_" (replace_char ":" "_"
                (replace_char "/" "_" key))) as [-> _]; [discriminate|].
    destruct (replace_char_spec ":" "_" (replace_char "/" "_" key))
      as [-> _]; [discriminate|].
    now destruct (replace_char_spec "/" "_" key) as [-> _].
  - set (k1 := replace_char "/" "_" key).
    set (k2 := replace_char ":" "_" k1).
    assert (H1 : all_chars (fun c => negb (Ascii.eqb c "/")) k1 = true)
      by (apply replace_char_spec; discriminate).
    assert (H2 : all_chars (fun c => negb (Ascii.eqb c ":")) k2 = true)
      by (apply replace_char_spec; discriminate).
    assert (H1' : all_chars (fun c => negb (Ascii.eqb c "/")) k2 = true)
      by (apply replace_char_keeps; [reflexivity|exact H1]).
    assert (H3 : all_chars (fun c => negb (Ascii.eqb c "?"))
                   (replace_char "?" "_" k2) = true)
      by (apply replace_char_spec; discriminate).
    assert (H1'' : all_chars (fun c => negb (Ascii.eqb c "/"))
                     (replace_char "?" "_" k2) = true)
      by (apply replace_char_keeps; [reflexivity|exact H1']).
    assert (H2' : all_chars (fun c => negb (Ascii.eqb c ":"))
                    (replace_char "?" "_" k2) = true)
      by (apply replace_char_keeps; [reflexivity|exact H2]).
    revert H1'' H2' H3. generalize (replace_char "?" "_" k2). clear.
    intros s. induction s as [|c s IH]; cbn [all_chars]; [auto|].
    intros Ha Hb Hc.
    apply andb_true_iff in Ha. apply andb_true_iff in Hb.
    apply andb_true_iff in Hc.
    destruct Ha as [-> Ha], Hb as [-> Hb], Hc as [-> Hc].
    now rewrite IH.
Qed.

(** ** The category of a search result *)

Lemma dict_get_set_eq k v d : dict_get k (dict_set k v d) = Some v.
Proof.
  induction d as [|[k' v'] d IH]; cbn [dict_set dict_get].
  - now rewrite String.eqb_refl.
  - destruct (String.eqb k k') eqn:E; cbn [dict_get]; rewrite ?E;
      [now rewrite String.eqb_refl|exact IH].
Qed.

Lemma dict_get_set_ne k k' v d :
  k <> k' -> dict_get k' (dict_set k v d) = dict_get k' d.
Proof.
  intros Hne. induction d as [|[k0 v0] d IH]; cbn [dict_set dict_get].
  - destruct (String.eqb_spec k' k); [congruence|reflexivity].
  - destruct (String.eqb_spec k k0) as [->|Hk]; cbn [dict_get].
    + destruct (String.eqb_spec k' k0); [congruence|reflexivity].
    + destruct (String.eqb k' k0); [reflexivity|exact IH].
Qed.

Lemma dict_set_set k v v' d : dict_set k v (dict_set k v' d) = dict_set k v d.
Proof.
  induction d as [|[k0 v0] d IH]; cbn [dict_set].
  - now rewrite String.eqb_refl.
  - destruct (String.eqb k k0) eqn:E; cbn [dict_set]; rewrite ?E;
      [now rewrite String.eqb_refl|now rewrite IH].
Qed.

Lemma is_str_refl s : is_str s (PStr s) = true.
Proof. apply String.eqb_refl. Qed.

(** A record that matched during the scan of a category comes out with
    that category among its ["categories"]; its other fields are as before,
    and a record that has the category already is left as it is. *)
Theorem tag_category_records_the_category cat_key d d' w w' :
  tag_category cat_key d w = (Ok d', w') ->
  w' = w /\
  (exists cs, dict_get "categories" d' = Some cs /\
              fst (py_in cat_key cs w) = Ok true) /\
  tag_category cat_key d' w = (Ok d', w) /\
  (forall k, k <> "categories" -> dict_get k d' = dict_get k d).
Proof.
  unfold tag_category. cbv zeta.
  set (d1 := if dict_mem "categories" d then d
             else dict_set "categories" (PList []) d).
  assert (Hmem : dict_mem "categories" d1 = true).
  { subst d1. destruct (dict_mem "categories" d) eqn:E; [exact E|].
    unfold dict_mem. now rewrite dict_get_set_eq. }
  assert (Hother : forall k, k <> "categories" -> dict_get k d1 = dict_get k d).
  { intros k Hk. subst d1. destruct (dict_mem "categories" d); [reflexivity|].
    apply dict_get_set_ne. congruence. }
  clearbody d1.
  destruct (dict_get "categories" d1) as [cats|] eqn:Hc;
    [|unfold raise; discriminate].
  destruct cats as [| | | s | cs | dd]; unfold raise, ret; try discriminate.
  - destruct (contains cat_key s) eqn:E; [|discriminate].
    intros H. injection H as <- <-. rewrite Hmem, Hc, E.
    split; [reflexivity|]. split; [|split; [reflexivity|exact Hother]].
    exists (PStr s). cbn. now rewrite E.
  - destruct (existsb (is_str cat_key) cs) eqn:E.
    + intros H. injection H as <- <-. rewrite Hmem, Hc, E.
      split; [reflexivity|]. split; [|split; [reflexivity|exact Hother]].
      exists (PList cs). cbn. now rewrite E.
    + intros H. injection H as <- <-.
      assert (E' : existsb (is_str cat_key) (cs ++ [PStr cat_key]) = true)
        by (rewrite existsb_app; cbn [existsb is_str orb];
            rewrite String.eqb_refl; cbn [orb]; apply orb_true_r).
      unfold dict_mem. repeat (rewrite dict_get_set_eq; cbv beta iota).
      rewrite E'.
      split; [reflexivity|]. split; [|split; [reflexivity|]].
      * exists (PList (cs ++ [PStr cat_key])). cbn. now rewrite E'.
      * intros k Hk. rewrite dict_get_set_ne by congruence. now apply Hother.
  - destruct (dict_mem cat_key dd) eqn:E; [|discriminate].
    intros H. injection H as <- <-. rewrite Hmem, Hc, E.
    split; [reflexivity|]. split; [|split; [reflexivity|exact Hother]].
    exists (PDict dd). cbn. now rewrite E.
Qed.

Lemma tag_category_records_the_category_witness :
  let d := [("title", PStr "Judy Alvarez")] in
  let d' := [("title", PStr "Judy Alvarez");
             ("categories", PList [PStr "characters"])] in
  tag_category "characters" d world0 = (Ok d', world0) /\
  world0 = world0 /\
  (exists cs, dict_get "categories" d' = Some cs /\
              fst (py_in "characters" cs world0) = Ok true) /\
  tag_category "characters" d' world0 = (Ok d', world0) /\
  (forall k, k <> "categories" -> dict_get k d' = dict_get k d).
Proof.
  cbv zeta.
  assert (H : tag_category "characters" [("title", PStr "Judy Alvarez")] world0
              = (Ok [("title", PStr "Judy Alvarez");
                     ("categories", PList [PStr "characters"])], world0))
    by reflexivity.
  split; [exact H|].
  exact (tag_category_records_the_category "characters" _ _ world0 world0 H).
Defined.
